(** * Review handlers of the REST backend

    A shallow embedding of [internal/controller/http/v1/handler/review.go]:
    the six gin handlers [CreateReview], [GetReview], [GetReviews],
    [UpdateReview], [DeleteReview] and [SetReviewImage], written as
    state-passing functions over the response writer, the trace of calls a
    request makes to its collaborators, and the collaborators' own state. *)

From Stdlib Require Import ZArith Ascii String List Lia.
From stdpp Require Import strings list gmap.

Local Open Scope Z_scope.

(** ** Go values *)

(** A Go [error] value is carried as its message. *)
Definition error := string.

(** The pair [(value, err)] a fallible Go call returns, when the value is only
    meaningful without an error. *)
Inductive result (A : Type) : Type :=
| Ok (a : A)
| Err (e : error).
Arguments Ok {A} a.
Arguments Err {A} e.

Definition err_of {A} (r : result A) : option error :=
  match r with
  | Ok _ => None
  | Err e => Some e
  end.

Definition byte_of (c : ascii) : Z := Z.of_N (N_of_ascii c).

Definition bytes (s : string) : list Z := map byte_of (list_ascii_of_string s).

(** ** package strconv *)

Module strconv.

(** The two [NumError.Err] values. *)
Inductive NumErr := ErrSyntax | ErrRange.

Definition is_digit (b : Z) : bool := (48 <=? b) && (b <=? 57).

Definition maxUint64 : Z := 2 ^ 64 - 1.

(** The digit loop of the fast path of [Atoi]: [ch -= '0'; if ch > 9]
    rejects every byte outside ['0'..'9'], since the subtraction wraps. *)
Fixpoint fast_digits (bs : list Z) (n : Z) : option Z :=
  match bs with
  | [] => Some n
  | ch :: bs' =>
      let ch := (ch - 48) mod 256 in
      if 9 <? ch then None else fast_digits bs' (n * 10 + ch)
  end.

(** The loop of [ParseUint] at base 10 and bit size 64: a byte that is not a
    decimal digit is a syntax error; a digit met once [n] has reached the
    cut-off is a range error, before the rest of the input is looked at. *)
Fixpoint ParseUint_loop (bs : list Z) (n : Z) : Z * option NumErr :=
  match bs with
  | [] => (n, None)
  | c :: bs' =>
      if is_digit c then
        let d := c - 48 in
        if maxUint64 / 10 + 1 <=? n then (maxUint64, Some ErrRange)
        else
          let n := n * 10 in
          let n1 := (n + d) mod 2 ^ 64 in
          if (n1 <? n) || (maxUint64 <? n1) then (maxUint64, Some ErrRange)
          else ParseUint_loop bs' n1
      else (0, Some ErrSyntax)
  end.

Definition ParseUint (bs : list Z) : Z * option NumErr :=
  match bs with
  | [] => (0, Some ErrSyntax)
  | _ => ParseUint_loop bs 0
  end.

(** [ParseInt(s, 10, 0)] with a 64-bit [int]. *)
Definition ParseInt (bs : list Z) : Z * option NumErr :=
  match bs with
  | [] => (0, Some ErrSyntax)
  | c :: rest =>
      let neg := c =? 45 in
      let s := if (c =? 43) || (c =? 45) then rest else bs in
      match ParseUint s with
      | (_, Some ErrSyntax) => (0, Some ErrSyntax)
      | (un, _) =>
          let cutoff := 2 ^ 63 in
          if negb neg && (cutoff <=? un) then (cutoff - 1, Some ErrRange)
          else if neg && (cutoff <? un) then (- cutoff, Some ErrRange)
          else (if neg then - un else un, None)
      end
  end.

(** [Atoi] on a 64-bit platform: the fast path for inputs of 1 to 18 bytes,
    [ParseInt] for the rest. *)
Definition Atoi (s : string) : Z * option NumErr :=
  let bs := bytes s in
  let sLen := Z.of_nat (length bs) in
  if (0 <? sLen) && (sLen <? 19) then
    match bs with
    | [] => (0, Some ErrSyntax)
    | c0 :: rest =>
        let signed := (c0 =? 45) || (c0 =? 43) in
        let ds := if signed then rest else bs in
        if signed && (Z.of_nat (length ds) <? 1) then (0, Some ErrSyntax)
        else
          match fast_digits ds 0 with
          | None => (0, Some ErrSyntax)
          | Some n => (if c0 =? 45 then - n else n, None)
          end
    end
  else ParseInt bs.

(** An optionally signed, non-empty run of decimal digits. *)
Definition is_decimal (s : string) : bool :=
  match bytes s with
  | [] => false
  | c0 :: rest =>
      let ds := if (c0 =? 45) || (c0 =? 43) then rest else c0 :: rest in
      negb (Z.of_nat (length ds) <? 1) && forallb is_digit ds
  end.

End strconv.

(** ** package github.com/google/uuid *)

Module uuid.

(** The table [xvalues]: the value of a hexadecimal digit, 255 otherwise. *)
Definition xvalue (b : Z) : Z :=
  if (48 <=? b) && (b <=? 57) then b - 48
  else if (65 <=? b) && (b <=? 70) then b - 55
  else if (97 <=? b) && (b <=? 102) then b - 87
  else 255.

Definition xtob (x1 x2 : Z) : option Z :=
  let b1 := xvalue x1 in
  let b2 := xvalue x2 in
  if (b1 =? 255) || (b2 =? 255) then None
  else Some (Z.lor (Z.shiftl b1 4) b2).

Definition at_ (bs : list Z) (i : nat) : Z := nth i bs 0.

Fixpoint xtobs (bs : list Z) (offs : list nat) : option (list Z) :=
  match offs with
  | [] => Some []
  | x :: offs' =>
      match xtob (at_ bs x) (at_ bs (S x)) with
      | None => None
      | Some v =>
          match xtobs bs offs' with
          | None => None
          | Some vs => Some (v :: vs)
          end
      end
  end.

Definition dashed_offsets : list nat :=
  [0; 2; 4; 6; 9; 11; 14; 16; 19; 21; 24; 26; 28; 30; 32; 34]%nat.

Definition plain_offsets : list nat :=
  [0; 2; 4; 6; 8; 10; 12; 14; 16; 18; 20; 22; 24; 26; 28; 30]%nat.

Definition to_lower (b : Z) : Z :=
  if (65 <=? b) && (b <=? 90) then b + 32 else b.

(** The tail of [Parse], once [s] starts with the 36-byte dashed form. *)
Definition parse_dashed (bs : list Z) : result (list Z) :=
  if negb (at_ bs 8 =? 45) || negb (at_ bs 13 =? 45)
     || negb (at_ bs 18 =? 45) || negb (at_ bs 23 =? 45)
  then Err "invalid UUID format"
  else match xtobs bs dashed_offsets with
       | None => Err "invalid UUID format"
       | Some u => Ok u
       end.

(** [Parse]: by length, the dashed form, the same behind [urn:uuid:] or
    inside one more byte on each side, or 32 hexadecimal digits. *)
Definition Parse (s : string) : result (list Z) :=
  let bs := bytes s in
  match length bs with
  | 36%nat => parse_dashed bs
  | 45%nat =>
      if bool_decide (map to_lower (take 9 bs) = bytes "urn:uuid:")
      then parse_dashed (drop 9 bs)
      else Err "invalid urn prefix"
  | 38%nat => parse_dashed (drop 1 bs)
  | 32%nat =>
      match xtobs bs plain_offsets with
      | None => Err "invalid UUID format"
      | Some u => Ok u
      end
  | _ => Err "invalid UUID length"
  end.

Definition is_hex (b : Z) : bool := negb (xvalue b =? 255).

(** The canonical text of a UUID: 36 bytes, hexadecimal digits in groups of
    8, 4, 4, 4 and 12 with a dash between the groups. *)
Definition canonical (bs : list Z) : bool :=
  bool_decide (length bs = 36%nat)
  && forallb (fun i => at_ bs i =? 45) [8; 13; 18; 23]%nat
  && forallb (fun i => is_hex (at_ bs i) && is_hex (at_ bs (S i))) dashed_offsets.

(** The texts that denote a UUID: the canonical one, the same after
    [urn:uuid:] or between braces, and 32 hexadecimal digits. *)
Definition well_formed (s : string) : bool :=
  let bs := bytes s in
  canonical bs
  || (bool_decide (map to_lower (take 9 bs) = bytes "urn:uuid:") && canonical (drop 9 bs))
  || (bool_decide (length bs = 38%nat) && (at_ bs 0 =? 123) && (at_ bs 37 =? 125)
      && canonical (take 36 (drop 1 bs)))
  || (bool_decide (length bs = 32%nat) && forallb is_hex bs).

End uuid.

(** ** package entity *)

Module entity.

(** [entity.Review], with the fields [docs/swagger.yaml] lists for it. *)
Record Review := mkReview {
  ID : string;
  UserID : string;
  BusinessID : string;
  Rating : Z;
  Feedback : string;
  Photos : string;
  CreatedAt : string
}.

Record Id := mkId { Id_ID : string }.

Record Filter := mkFilter {
  Column : string;
  Type_ : string;
  Value : string
}.

Record OrderBy := mkOrderBy {
  OrderBy_Column : string;
  Order : string
}.

Record GetListFilter := mkGetListFilter {
  Page : Z;
  Limit : Z;
  Filters : list Filter;
  GetListFilter_OrderBy : list OrderBy
}.

Record ReviewList := mkReviewList {
  Reviews : list Review;
  Count : Z
}.

Record ErrorResponse := mkErrorResponse {
  Code : string;
  Message : string
}.

Record SuccessResponse := mkSuccessResponse { SuccessResponse_Message : string }.

(** The zero value of [Review], what [var req entity.Review] holds. *)
Definition zeroReview : Review := mkReview "" "" "" 0 "" "" "".

Definition zeroGetListFilter : GetListFilter := mkGetListFilter 0 0 [] [].

Definition with_UserID (r : Review) (u : string) : Review :=
  mkReview (ID r) u (BusinessID r) (Rating r) (Feedback r) (Photos r) (CreatedAt r).

End entity.
Import entity.

(** ** The gin context *)

(** [multipart.FileHeader], of which the handlers read the file name. *)
Record FileHeader := mkFileHeader { Filename : string }.

(** What [ctx.JSON] is given to serialise. *)
Inductive Body :=
| JReview (r : Review)
| JReviewList (l : ReviewList)
| JSuccessResponse (m : SuccessResponse)
| JErrorResponse (e : ErrorResponse)
| JH (kv : list (string * string))
| JError (e : error).

(** gin's response writer: the status line, whether it has been sent, and the
    bodies written so far. *)
Record ResponseWriter := mkWriter {
  status : Z;
  written : bool;
  body : list Body
}.

Definition newWriter : ResponseWriter := mkWriter 200 false [].

(** [responseWriter.WriteHeader]: a status that has been sent stays. *)
Definition WriteHeader (code : Z) (w : ResponseWriter) : ResponseWriter :=
  if (0 <? code) && negb (status w =? code) then
    if written w then w else mkWriter code (written w) (body w)
  else w.

Definition WriteHeaderNow (w : ResponseWriter) : ResponseWriter :=
  mkWriter (status w) true (body w).

(** gin's [bodyAllowedForStatus]: no body goes with 1xx, 204 and 304. *)
Definition bodyAllowedForStatus (status : Z) : bool :=
  if (100 <=? status) && (status <=? 199) then false
  else if status =? 204 then false
  else if status =? 304 then false
  else true.

(** net/http's [checkWriteHeaderCode]: a status line is sent only for a code
    of three digits; any other makes [WriteHeader] panic. *)
Definition validStatusCode (code : Z) : bool := (100 <=? code) && (code <=? 999).

Definition Write (b : Body) (w : ResponseWriter) : ResponseWriter :=
  mkWriter (status w) true (body w ++ [b]).

(** The request as the handlers read it, together with what the environment
    answers while the request is served. *)
Record Request := mkRequest {
  GetQuery : string -> option string;
  Param : string -> string;
  GetHeader : string -> string;
  (** the outcome of decoding the JSON body into a [Review] *)
  JSONBody : Review * option error;
  FormFile : string -> FileHeader * option error;
  (** the outcome of copying the uploaded file to a path *)
  SaveUploadedFile : FileHeader -> string -> option error;
  (** the string form of the identifier [uuid.New()] draws *)
  uuid_New_String : string
}.

Definition DefaultQuery (rq : Request) (key defaultValue : string) : string :=
  match GetQuery rq key with
  | Some v => v
  | None => defaultValue
  end.

(** ** The handler's collaborators *)

(** The calls a handler makes to the repository, the object store and the
    file system, in the order it makes them. *)
Inductive Call :=
| CallCreate (r : Review)
| CallGetSingle (id : Id)
| CallGetList (f : GetListFilter)
| CallUpdate (r : Review)
| CallDelete (id : Id)
| CallUpload (key path : string)
| CallSaveUploadedFile (file : FileHeader) (dst : string).

(** The review repository, an interface over the state [S] it keeps. *)
Record ReviewRepoI (S : Type) := mkReviewRepo {
  Create : Review -> S -> (Review * option error) * S;
  GetSingle : Id -> S -> (Review * option error) * S;
  GetList : GetListFilter -> S -> (ReviewList * option error) * S;
  Update : Review -> S -> (Review * option error) * S;
  Delete : Id -> S -> option error * S
}.
Arguments Create {S} _ _ _.
Arguments GetSingle {S} _ _ _.
Arguments GetList {S} _ _ _.
Arguments Update {S} _ _ _.
Arguments Delete {S} _ _ _.

(** Modelled from the spec: the statuses of the error mapper, which is not
    among the sources. It answers a failure with an HTTP error status and
    always with a [{code, message}] body, and the handlers document 400 and
    500 for it: a status of the classes 4xx and 5xx. *)
Record ErrorStatus := mkErrorStatus {
  status_code : Z;
  status_code_error : (400 <=? status_code) && (status_code <=? 599) = true
}.

(** The [Handler] struct: the repository, the object store, and the two parts
    of the error mapping whose declarations are not among the sources, the
    status and envelope [HandleDbError] answers an error with and the
    constant [config.ErrorBadRequest]. *)
Record Handler (S : Type) := mkHandler {
  ReviewRepo : ReviewRepoI S;
  MinIO_Upload : string -> string -> S -> (string * option error) * S;
  ErrorMapper : error -> string -> ErrorStatus * ErrorResponse;
  ErrorBadRequest : string
}.
Arguments ReviewRepo {S} _.
Arguments MinIO_Upload {S} _ _ _ _.
Arguments ErrorMapper {S} _ _ _.
Arguments ErrorBadRequest {S} _.

(** The status and the envelope the error mapper answers [e] with, when the
    handler reports it under [message]. *)
Definition DbErrorResponse {S} (h : Handler S) (e : error) (message : string)
  : Z * ErrorResponse :=
  (status_code (fst (ErrorMapper h e message)), snd (ErrorMapper h e message)).

(** ** Serving a request: a state monad *)

Record Conn (S : Type) := mkConn {
  writer : ResponseWriter;
  calls : list Call;
  backend : S
}.
Arguments mkConn {S} _ _ _.
Arguments writer {S} _.
Arguments calls {S} _.
Arguments backend {S} _.

(** A handler step runs on the connection and returns a value, or [None]
    when it panics; the connection is the one reached either way. *)
Definition M (S A : Type) : Type := Conn S -> option A * Conn S.

Global Instance M_ret {S} : MRet (M S) := fun A a c => (Some a, c).

Global Instance M_bind {S} : MBind (M S) :=
  fun A B k m c =>
    match m c with
    | (Some a, c') => k a c'
    | (None, c') => (None, c')
    end.

Definition on_writer {S} (f : ResponseWriter -> ResponseWriter) : M S unit :=
  fun c => (Some tt, mkConn (f (writer c)) (calls c) (backend c)).

(** Run a collaborator on its state and record the call. *)
Definition perform {S A} (call : Call) (op : S -> A * S) : M S A :=
  fun c => let (a, s') := op (backend c) in
           (Some a, mkConn (writer c) (calls c ++ [call]) s').

(** [responseWriter.WriteHeaderNow] on the connection: a header not yet sent
    is handed to net/http, which panics on a code it refuses. *)
Definition send_header {S} : M S unit :=
  fun c =>
    let w := writer c in
    let c' := mkConn (WriteHeaderNow w) (calls c) (backend c) in
    if negb (written w) && negb (validStatusCode (status w))
    then (None, c') else (Some tt, c').

(** [ctx.JSON(code, obj)]: the status is set if none has been sent, the
    header is sent, and the body is written when the code allows one. *)
Definition JSON {S} (code : Z) (obj : Body) : M S unit :=
  on_writer (WriteHeader code) ;;
  send_header ;;
  if bodyAllowedForStatus code then on_writer (Write obj) else mret tt.

(** [ctx.AbortWithError(code, err)]: the status is set and sent at once. *)
Definition AbortWithError {S} (code : Z) : M S unit :=
  on_writer (WriteHeader code) ;; send_header.

(** [ctx.ShouldBindJSON(&obj)]. *)
Definition ShouldBindJSON {S} (rq : Request) : M S (Review * option error) :=
  mret (JSONBody rq).

(** [ctx.BindJSON(&obj)]: as [ShouldBindJSON], and a failure aborts the
    request with status 400. *)
Definition BindJSON {S} (rq : Request) : M S (Review * option error) :=
  '(obj, err) ← ShouldBindJSON rq;
  match err with
  | Some _ => AbortWithError 400 ;; mret (obj, err)
  | None => mret (obj, err)
  end.

Section Handlers.

Context {S : Type} (h : Handler S).

(** Modelled from the spec: [ReturnError] is not among the sources; it
    answers with the given status and the envelope [{code, message}]. *)
Definition ReturnError (code message : string) (statusCode : Z) : M S unit :=
  JSON statusCode (JErrorResponse (mkErrorResponse code message)).

(** Modelled from the spec: [HandleDbError], the error mapper, is not among
    the sources; it reports whether there was an error, and answers one
    with an error status and a [{code, message}] envelope of its choosing. *)
Definition HandleDbError (err : option error) (message : string) : M S bool :=
  match err with
  | None => mret false
  | Some e =>
      let r := DbErrorResponse h e message in
      JSON (fst r) (JErrorResponse (snd r)) ;; mret true
  end.

Definition CreateReview (ctx : Request) : M S unit :=
  '(req, err) ← BindJSON ctx;
  handled ← HandleDbError err "Error getting review";
  if handled : bool then mret tt else
  let UserId := GetHeader ctx "sub" in
  let req := with_UserID req UserId in
  '(res, err) ← perform (CallCreate req) (Create (ReviewRepo h) req);
  handled ← HandleDbError err "Error creating review";
  if handled : bool then mret tt else
  JSON 200 (JReview res).

Definition GetReview (ctx : Request) : M S unit :=
  let req := mkId (Param ctx "id") in
  '(review, err) ← perform (CallGetSingle req) (GetSingle (ReviewRepo h) req);
  handled ← HandleDbError err "Error getting review";
  if handled : bool then mret tt else
  JSON 200 (JReview review).

Definition GetReviews (ctx : Request) : M S unit :=
  let req := zeroGetListFilter in
  let page := DefaultQuery ctx "page" "1" in
  let limit := DefaultQuery ctx "limit" "10" in
  let businessID := DefaultQuery ctx "business_id" "" in
  let req := mkGetListFilter (fst (strconv.Atoi page)) (Limit req)
               (Filters req) (GetListFilter_OrderBy req) in
  let req := mkGetListFilter (Page req) (fst (strconv.Atoi limit))
               (Filters req) (GetListFilter_OrderBy req) in
  let req := mkGetListFilter (Page req) (Limit req)
               (Filters req ++ [mkFilter "business_id" "eq" businessID])
               (GetListFilter_OrderBy req) in
  let req := mkGetListFilter (Page req) (Limit req) (Filters req)
               (GetListFilter_OrderBy req ++ [mkOrderBy "created_at" "desc"]) in
  let err := err_of (uuid.Parse businessID) in
  if bool_decide (err <> None) && bool_decide (businessID <> "") then
    JSON 404 (JH [("Error:", "Wrong format type please write UUID")])
  else
  '(reviews, err) ← perform (CallGetList req) (GetList (ReviewRepo h) req);
  handled ← HandleDbError err "Error getting reviews";
  if handled : bool then mret tt else
  JSON 200 (JReviewList reviews).

Definition UpdateReview (ctx : Request) : M S unit :=
  '(body, err) ← ShouldBindJSON ctx;
  match err with
  | Some _ => ReturnError (ErrorBadRequest h) "Invalid request body" 400
  | None =>
      '(review, err) ← perform (CallUpdate body) (Update (ReviewRepo h) body);
      handled ← HandleDbError err "Error updating review";
      if handled : bool then mret tt else
      JSON 200 (JReview review)
  end.

Definition DeleteReview (ctx : Request) : M S unit :=
  let req := mkId (Param ctx "id") in
  err ← perform (CallDelete req) (Delete (ReviewRepo h) req);
  handled ← HandleDbError err "Error deleting review";
  if handled : bool then mret tt else
  JSON 200 (JSuccessResponse (mkSuccessResponse "Review deleted successfully")).

Definition SetReviewImage (ctx : Request) : M S unit :=
  let reviewID := Param ctx "id" in
  if bool_decide (reviewID = "") then
    ReturnError (ErrorBadRequest h) "Review ID is required in path" 400
  else
  let '(file, err) := FormFile ctx "file" in
  match err with
  | Some _ => ReturnError (ErrorBadRequest h) "Error getting file" 400
  | None =>
      let tempPath := "/tmp/" +:+ Filename file in
      err ← perform (CallSaveUploadedFile file tempPath)
               (fun s => (SaveUploadedFile ctx file tempPath, s));
      match err with
      | Some e => JSON 500 (JError e)
      | None =>
          let filename := uuid_New_String ctx +:+ "-" +:+ Filename file in
          '(minioURL, err) ← perform (CallUpload filename tempPath)
                                (MinIO_Upload h filename tempPath);
          handled ← HandleDbError err "Error uploading review image";
          if handled : bool then mret tt else
          let updateReq := mkReview reviewID "" "" 0 "" minioURL "" in
          '(updatedReview, err) ← perform (CallUpdate updateReq)
                                     (Update (ReviewRepo h) updateReq);
          handled ← HandleDbError err "Error updating review image";
          if handled : bool then mret tt else
          JSON 200 (JReview updatedReview)
      end
  end.

End Handlers.

(** The value of [req] in [GetReviews] once the query string has been read,
    at the point where the handler validates [business_id]. *)
Definition list_filter (ctx : Request) : GetListFilter :=
  mkGetListFilter
    (fst (strconv.Atoi (DefaultQuery ctx "page" "1")))
    (fst (strconv.Atoi (DefaultQuery ctx "limit" "10")))
    [mkFilter "business_id" "eq" (DefaultQuery ctx "business_id" "")]
    [mkOrderBy "created_at" "desc"].

(** The value of [updateReq] in [SetReviewImage]. *)
Definition image_update (reviewID minioURL : string) : Review :=
  mkReview reviewID "" "" 0 "" minioURL "".

(** [sub] occurs inside [s]. *)
Definition contains (sub s : string) : Prop :=
  exists pre post, s = pre +:+ sub +:+ post.

(** The writer after [HandleDbError] has answered an error on [w]. *)
Definition answered (w : ResponseWriter) (r : Z * ErrorResponse) : ResponseWriter :=
  let w' := WriteHeader (fst r) w in
  mkWriter (status w') true (body w' ++ [JErrorResponse (snd r)]).

(** The connection a request starts with, and the one the handler leaves. *)
Definition serve {S} (handler : M S unit) (s : S) : Conn S :=
  snd (handler (mkConn newWriter [] s)).

(** Whether the handler panics on the way. *)
Definition panics {S} (handler : M S unit) (s : S) : bool :=
  match fst (handler (mkConn newWriter [] s)) with
  | Some _ => false
  | None => true
  end.

(** ** The repository and the object store, from their contracts *)

Module SpecRepo.

(** The review repository is not among the sources; this module follows its
    contract, over rows kept by identifier. *)

(** Modelled from the spec: the error kinds [NotFound] and [DbError] of the
    repository contract. *)
Definition NotFound : error := "not found".

Definition DbError : error := "database error".

(** A column of the [reviews] table: text, or the integer rating. *)
Definition column (name : string) : option (Review -> string + Z) :=
  if bool_decide (name = "id") then Some (fun r => inl (ID r))
  else if bool_decide (name = "user_id") then Some (fun r => inl (UserID r))
  else if bool_decide (name = "business_id") then Some (fun r => inl (BusinessID r))
  else if bool_decide (name = "rating") then Some (fun r => inr (Rating r))
  else if bool_decide (name = "feedback") then Some (fun r => inl (Feedback r))
  else if bool_decide (name = "photos") then Some (fun r => inl (Photos r))
  else if bool_decide (name = "created_at") then Some (fun r => inl (CreatedAt r))
  else None.

(** Modelled from the spec: the predicate of one filter triple of [GetList].
    Only equality is specified, and an equality with the empty string is not
    applied. *)
Definition predicate (f : Filter) : option (Review -> bool) :=
  if bool_decide (Type_ f = "eq") then
    if bool_decide (Value f = "") then Some (fun _ => true) else
    match column (Column f) with
    | Some get =>
        Some (fun r =>
                match get r with
                | inl s => bool_decide (s = Value f)
                | inr z =>
                    match strconv.Atoi (Value f) with
                    | (v, None) => v =? z
                    | (_, Some _) => false
                    end
                end)
    | None => None
    end
  else None.

Fixpoint predicates (fs : list Filter) : option (Review -> bool) :=
  match fs with
  | [] => Some (fun _ => true)
  | f :: fs' =>
      match predicate f, predicates fs' with
      | Some p, Some q => Some (fun r => p r && q r)
      | _, _ => None
      end
  end.

Definition compare_value (a b : string + Z) : comparison :=
  match a, b with
  | inl s, inl t => String.compare s t
  | inr x, inr y => Z.compare x y
  | inl _, inr _ => Lt
  | inr _, inl _ => Gt
  end.

(** The comparison one order-by clause induces. *)
Definition clause (o : OrderBy) : option (Review -> Review -> comparison) :=
  match column (OrderBy_Column o) with
  | Some get =>
      if bool_decide (Order o = "asc") then
        Some (fun r1 r2 => compare_value (get r1) (get r2))
      else if bool_decide (Order o = "desc") then
        Some (fun r1 r2 => compare_value (get r2) (get r1))
      else None
  | None => None
  end.

Fixpoint ordering (os : list OrderBy) : option (Review -> Review -> comparison) :=
  match os with
  | [] => Some (fun _ _ => Eq)
  | o :: os' =>
      match clause o, ordering os' with
      | Some c, Some d =>
          Some (fun r1 r2 => match c r1 r2 with Eq => d r1 r2 | x => x end)
      | _, _ => None
      end
  end.

Fixpoint insert_sorted (cmp : Review -> Review -> comparison)
         (r : Review) (l : list Review) : list Review :=
  match l with
  | [] => [r]
  | x :: l' =>
      match cmp r x with
      | Gt => x :: insert_sorted cmp r l'
      | _ => r :: x :: l'
      end
  end.

Definition sort (cmp : Review -> Review -> comparison) (l : list Review) : list Review :=
  foldr (insert_sorted cmp) [] l.

Definition rows (db : gmap string Review) : list Review :=
  (map_to_list db).*2.

(** Modelled from the spec: [GetList] of the repository, not among the
    sources, applies every filter triple, then the order-by clauses in the
    order given, then offset [(page-1)*limit] and the limit, counts the rows
    the filters keep, and fails on a triple or clause it cannot translate. A
    filter on the empty string is not applied. A negative offset or limit is
    read as 0. *)
Definition GetList (req : GetListFilter) (db : gmap string Review)
  : (ReviewList * option error) * gmap string Review :=
  match predicates (Filters req), ordering (GetListFilter_OrderBy req) with
  | Some p, Some cmp =>
      let matching := sort cmp (filter (fun r => p r = true) (rows db)) in
      let offset := Z.to_nat ((Page req - 1) * Limit req) in
      let page := take (Z.to_nat (Limit req)) (drop offset matching) in
      ((mkReviewList page (Z.of_nat (length matching)), None), db)
  | _, _ => ((mkReviewList [] 0, Some DbError), db)
  end.

(** Modelled from the spec: [GetSingle] of the repository, not among the
    sources, fails with [NotFound] when no row has the identifier. *)
Definition GetSingle (id : Id) (db : gmap string Review)
  : (Review * option error) * gmap string Review :=
  match db !! Id_ID id with
  | Some r => ((r, None), db)
  | None => ((zeroReview, Some NotFound), db)
  end.

(** Modelled from the spec: [Update] of the repository, not among the
    sources, replaces the whole record kept under the entity's identifier and
    fails with [NotFound] when there is none. *)
Definition Update (r : Review) (db : gmap string Review)
  : (Review * option error) * gmap string Review :=
  match db !! ID r with
  | Some _ => ((r, None), <[ID r := r]> db)
  | None => ((zeroReview, Some NotFound), db)
  end.

(** Modelled from the spec: [Delete] of the repository, not among the
    sources, fails with [NotFound] when no row has the identifier. *)
Definition Delete (id : Id) (db : gmap string Review)
  : option error * gmap string Review :=
  match db !! Id_ID id with
  | Some _ => (None, delete (Id_ID id) db)
  | None => (Some NotFound, db)
  end.

(** Modelled from the spec: [Create] of the repository, not among the
    sources, stores the entity under a new identifier and creation time, both
    drawn by [fresh] from the rows present, and fails on a duplicate. *)
Definition Create (fresh : gmap string Review -> string * string)
           (r : Review) (db : gmap string Review)
  : (Review * option error) * gmap string Review :=
  let '(id, now) := fresh db in
  match db !! id with
  | Some _ => ((zeroReview, Some DbError), db)
  | None =>
      let r' := mkReview id (UserID r) (BusinessID r) (Rating r)
                  (Feedback r) (Photos r) now in
      ((r', None), <[id := r']> db)
  end.

Definition repo (fresh : gmap string Review -> string * string)
  : ReviewRepoI (gmap string Review) :=
  mkReviewRepo _ (Create fresh) GetSingle GetList Update Delete.

(** A handler over this repository; the object store [upload], the error
    mapping and the identifier source stay parameters. *)
Definition handler (fresh : gmap string Review -> string * string)
           (upload : string -> string -> string * option error)
           (mapping : error -> string -> ErrorStatus * ErrorResponse)
           (badRequest : string) : Handler (gmap string Review) :=
  mkHandler _ (repo fresh) (fun key path db => (upload key path, db))
            mapping badRequest.

End SpecRepo.

(** ** A concrete deployment, for evaluating the handlers *)

Module Demo.

Definition review1 : Review :=
  mkReview "7c9e6679-7425-40de-944b-e07fc1f90ae7" "u-1"
           "3fa85f64-5717-4562-b3fc-2c963f66afa6" 5 "great" "" "2024-01-01T10:00:00Z".

Definition review2 : Review :=
  mkReview "0e37df36-f698-11e6-8dd4-cb9ced3df976" "u-2"
           "16fd2706-8baf-433b-82eb-8c7fada847da" 3 "fine" "" "2024-02-01T10:00:00Z".

Definition db : gmap string Review :=
  <[ID review1 := review1]> (<[ID review2 := review2]> ∅).

Definition fresh (d : gmap string Review) : string * string :=
  ("5c2e1a2e-0000-4000-8000-000000000001", "2024-03-01T10:00:00Z").

Definition upload (key path : string) : string * option error :=
  ("http://minio:9000/reviews/" +:+ key, None).

Definition mapping (e : error) (message : string) : ErrorStatus * ErrorResponse :=
  (mkErrorStatus 400 eq_refl, mkErrorResponse "DATABASE_ERROR" "database error").

Definition h : Handler (gmap string Review) :=
  SpecRepo.handler fresh upload mapping "BAD_REQUEST".

(** A handler whose repository always fails. *)
Definition failing : Handler unit :=
  mkHandler _
    (mkReviewRepo _
       (fun _ s => ((zeroReview, Some "db down"), s))
       (fun _ s => ((zeroReview, Some "db down"), s))
       (fun _ s => ((mkReviewList [] 0, Some "db down"), s))
       (fun _ s => ((zeroReview, Some "db down"), s))
       (fun _ s => (Some "db down", s)))
    (fun _ _ s => (("", Some "store down"), s))
    mapping "BAD_REQUEST".

Definition noQuery : string -> option string := fun _ => None.

Definition request (query : string -> option string) (id : string)
           (sub : string) (body : Review * option error)
           (file : FileHeader * option error) (save : option error)
           (fresh_uuid : string) : Request :=
  mkRequest query (fun k => if bool_decide (k = "id") then id else "")
            (fun k => if bool_decide (k = "sub") then sub else "")
            body (fun _ => file) (fun _ _ => save) fresh_uuid.

Definition query1 (key value : string) : string -> option string :=
  fun k => if bool_decide (k = key) then Some value else None.

Definition list_request (query : string -> option string) : Request :=
  request query "" "u-1" (zeroReview, Some "EOF")
          (mkFileHeader "", Some "no file") None "".

Definition image_request (id name fresh_uuid : string) (save : option error) : Request :=
  request noQuery id "u-1" (zeroReview, Some "EOF")
          (mkFileHeader name, None) save fresh_uuid.

End Demo.

(** ** Measures on a served request *)

(** The calls that reach the review repository. *)
Definition is_repo_call (c : Call) : bool :=
  match c with
  | CallCreate _ | CallGetSingle _ | CallGetList _ | CallUpdate _ | CallDelete _ => true
  | CallUpload _ _ | CallSaveUploadedFile _ _ => false
  end.

Definition repo_calls (cs : list Call) : nat :=
  length (List.filter is_repo_call cs).

(** The response has been sent, with one body. *)
Definition answered_once (w : ResponseWriter) : Prop :=
  written w = true /\ length (body w) = 1%nat.

(** The number a run of decimal digits writes, after [acc]. *)
Definition digits_value (bs : list Z) (acc : Z) : Z :=
  fold_left (fun n b => n * 10 + (b - 48)) bs acc.

(** The integer an optionally signed run of decimal digits writes. *)
Definition decimal_value (s : string) : Z :=
  match bytes s with
  | [] => 0
  | c0 :: rest =>
      if c0 =? 45 then - digits_value rest 0
      else if c0 =? 43 then digits_value rest 0
      else digits_value (c0 :: rest) 0
  end.

(** The nearest value of Go's 64-bit [int]. *)
Definition clamp_int (z : Z) : Z := Z.max (- 2 ^ 63) (Z.min z (2 ^ 63 - 1)).

(** * Properties *)

(** ** Library functions *)

Example Atoi_default_page : strconv.Atoi "1" = (1, None).
Proof. reflexivity. Qed.

Example Atoi_default_limit : strconv.Atoi "10" = (10, None).
Proof. reflexivity. Qed.

Example Atoi_letters : strconv.Atoi "abc" = (0, Some strconv.ErrSyntax).
Proof. reflexivity. Qed.

Example Atoi_negative : strconv.Atoi "-25" = (-25, None).
Proof. reflexivity. Qed.

Example Atoi_too_large :
  strconv.Atoi "99999999999999999999" = (2 ^ 63 - 1, Some strconv.ErrRange).
Proof. vm_compute. reflexivity. Qed.

Example Parse_canonical :
  exists u, uuid.Parse "3fa85f64-5717-4562-b3fc-2c963f66afa6" = Ok u.
Proof. vm_compute. eexists. reflexivity. Qed.

Example Parse_plain_word : uuid.Parse "not-a-uuid" = Err "invalid UUID length".
Proof. reflexivity. Qed.

Example Parse_empty : uuid.Parse "" = Err "invalid UUID length".
Proof. reflexivity. Qed.

(** A long run of digits overflows before the letter after it is met. *)
Example Atoi_overflow_before_junk :
  strconv.is_decimal "99999999999999999999x" = false
  /\ strconv.Atoi "99999999999999999999x" = (9223372036854775807, Some strconv.ErrRange).
Proof. split; vm_compute; reflexivity. Qed.

Lemma byte_of_range (c : ascii) : 0 <= byte_of c < 256.
Proof.
  unfold byte_of. pose proof (N_ascii_bounded c) as Hb. lia.
Qed.

Lemma bytes_range (s : string) : Forall (fun b => 0 <= b < 256) (bytes s).
Proof.
  unfold bytes. induction s as [|c s IH]; simpl; constructor; auto using byte_of_range.
Qed.

Lemma bytes_length (s : string) : length (bytes s) = String.length s.
Proof.
  unfold bytes. induction s as [|c s IH]; simpl; [reflexivity | now rewrite IH].
Qed.

(** On bytes, the wrapping test of the fast path is the digit test. *)
Lemma fast_digit_test (b : Z) :
  0 <= b < 256 -> (9 <? (b - 48) mod 256) = negb (strconv.is_digit b).
Proof.
  intros Hb. unfold strconv.is_digit.
  destruct (Z.leb_spec 48 b) as [H1|H1]; simpl.
  - rewrite Z.mod_small by lia.
    destruct (Z.leb_spec b 57), (Z.ltb_spec 9 (b - 48)); simpl; lia.
  - replace ((b - 48) mod 256) with (b - 48 + 256)
      by (apply Z.mod_unique with (q := -1); lia).
    destruct (Z.ltb_spec 9 (b - 48 + 256)); lia.
Qed.

Lemma fast_digits_None (bs : list Z) (n : Z) :
  Forall (fun b => 0 <= b < 256) bs ->
  forallb strconv.is_digit bs = false ->
  strconv.fast_digits bs n = None.
Proof.
  intros Hr. revert n. induction Hr as [|b bs Hb Hbs IH]; intros n Hd; simpl in *.
  - discriminate.
  - rewrite fast_digit_test by assumption.
    destruct (strconv.is_digit b); simpl in *; [apply IH; assumption | reflexivity].
Qed.

(** Whenever [Atoi] reports a syntax error, the value it returns is 0. *)
Lemma Atoi_syntax_zero (s : string) :
  snd (strconv.Atoi s) = Some strconv.ErrSyntax -> fst (strconv.Atoi s) = 0.
Proof.
  unfold strconv.Atoi.
  destruct (_ && _).
  - destruct (bytes s) as [|c0 rest]; [reflexivity|].
    destruct (_ && _); [reflexivity|].
    destruct (strconv.fast_digits _ 0); [discriminate | reflexivity].
  - unfold strconv.ParseInt. destruct (bytes s) as [|c rest]; [reflexivity|].
    destruct (strconv.ParseUint _) as [un [[]|]]; simpl; [reflexivity| |];
      repeat match goal with |- context [if ?b then _ else _] => destruct b end;
      simpl; congruence.
Qed.

(** Every input of at most 18 bytes that is not an optionally signed run of
    digits is a syntax error, with value 0. *)
Lemma Atoi_not_decimal (s : string) :
  (String.length s < 19)%nat -> strconv.is_decimal s = false ->
  strconv.Atoi s = (0, Some strconv.ErrSyntax).
Proof.
  intros Hlen Hnd. unfold strconv.Atoi, strconv.is_decimal in *.
  pose proof (bytes_range s) as Hr. rewrite <- bytes_length in Hlen.
  destruct (bytes s) as [|c0 rest]; [reflexivity|].
  replace ((0 <? Z.of_nat (length (c0 :: rest))) && (Z.of_nat (length (c0 :: rest)) <? 19))
    with true
    by (symmetry; apply andb_true_iff; split; apply Z.ltb_lt; simpl in *; lia).
  inversion Hr as [|? ? Hc0 Hrest]; subst.
  destruct ((c0 =? 45) || (c0 =? 43)) eqn:Hsign; cbn [andb].
  - destruct (Z.of_nat (length rest) <? 1); [reflexivity|]. simpl in Hnd.
    now rewrite fast_digits_None.
  - replace (Z.of_nat (length (c0 :: rest)) <? 1) with false in Hnd
      by (symmetry; apply Z.ltb_ge; simpl; lia).
    simpl negb in Hnd. cbn [andb] in Hnd.
    now rewrite fast_digits_None by assumption.
Qed.

(** ** Running the handlers *)

Lemma error_status_range (st : ErrorStatus) : 400 <= status_code st <= 599.
Proof.
  destruct st as [code Hcode]; cbn.
  apply andb_true_iff in Hcode as [H1 H2].
  apply Z.leb_le in H1. apply Z.leb_le in H2. lia.
Qed.

Lemma DbErrorResponse_range {S} (h : Handler S) (e : error) (message : string) :
  400 <= fst (DbErrorResponse h e message) <= 599.
Proof. apply error_status_range. Qed.

Lemma bodyAllowedForStatus_error (code : Z) :
  400 <= code <= 599 -> bodyAllowedForStatus code = true.
Proof.
  intros Hc. unfold bodyAllowedForStatus.
  destruct (Z.leb_spec 100 code), (Z.leb_spec code 199); cbn [andb]; try lia.
  destruct (Z.eqb_spec code 204); [lia|]. destruct (Z.eqb_spec code 304); [lia|].
  reflexivity.
Qed.

Lemma WriteHeader_written (code : Z) (w : ResponseWriter) :
  written (WriteHeader code w) = written w.
Proof.
  unfold WriteHeader. destruct (_ && _); [destruct (written w) eqn:Hw|]; auto.
Qed.

Lemma WriteHeader_sent (code : Z) (w : ResponseWriter) :
  written w = true -> WriteHeader code w = w.
Proof.
  intros Hw. unfold WriteHeader. destruct (_ && _); [rewrite Hw|]; reflexivity.
Qed.

Lemma WriteHeader_new (code : Z) :
  0 < code -> WriteHeader code newWriter = mkWriter code false [].
Proof.
  intros Hc. unfold WriteHeader, newWriter. cbn [status written body].
  replace (0 <? code) with true by (symmetry; now apply Z.ltb_lt).
  destruct (Z.eqb_spec 200 code) as [<-|Hne]; reflexivity.
Qed.

(** [ctx.JSON] with a status that allows a body, on a connection whose
    header is sent or whose status net/http accepts: no panic, one more
    body. *)
Lemma JSON_run {S} (code : Z) (obj : Body) (c : Conn S) :
  bodyAllowedForStatus code = true ->
  written (writer c) = true
  \/ validStatusCode (status (WriteHeader code (writer c))) = true ->
  JSON code obj c =
    (Some tt, mkConn (Write obj (WriteHeader code (writer c))) (calls c) (backend c)).
Proof.
  intros Hbody Hok.
  unfold JSON, send_header, on_writer, mbind, M_bind, mret, M_ret.
  cbn [writer calls backend]. rewrite Hbody, WriteHeader_written.
  replace (negb (written (writer c))
           && negb (validStatusCode (status (WriteHeader code (writer c)))))
    with false.
  - reflexivity.
  - symmetry. apply andb_false_iff.
    destruct Hok as [-> | ->]; [left | right]; reflexivity.
Qed.

Lemma JSON_new {S} (code : Z) (obj : Body) (cs : list Call) (s : S) :
  validStatusCode code = true -> bodyAllowedForStatus code = true ->
  JSON code obj (mkConn newWriter cs s) = (Some tt, mkConn (mkWriter code true [obj]) cs s).
Proof.
  intros Hv Hb.
  assert (Hpos : 0 < code).
  { unfold validStatusCode in Hv. apply andb_true_iff in Hv as [H1 _].
    apply Z.leb_le in H1. lia. }
  rewrite JSON_run; cbn [writer calls backend]; rewrite ?WriteHeader_new by assumption;
    [reflexivity | assumption | now right].
Qed.

Lemma AbortWithError_new {S} (code : Z) (cs : list Call) (s : S) :
  validStatusCode code = true ->
  AbortWithError code (mkConn newWriter cs s) = (Some tt, mkConn (mkWriter code true []) cs s).
Proof.
  intros Hv.
  assert (Hpos : 0 < code).
  { unfold validStatusCode in Hv. apply andb_true_iff in Hv as [H1 _].
    apply Z.leb_le in H1. lia. }
  unfold AbortWithError, send_header, on_writer, mbind, M_bind.
  cbn [writer calls backend]. rewrite WriteHeader_new by assumption.
  cbn [status written]. now rewrite Hv.
Qed.

Lemma HandleDbError_None {S} (h : Handler S) (message : string) (c : Conn S) :
  HandleDbError h None message c = (Some false, c).
Proof. reflexivity. Qed.

(** The error mapper never panics, and always writes its envelope. *)
Lemma HandleDbError_Some {S} (h : Handler S) (e : error) (message : string)
      (c : Conn S) :
  HandleDbError h (Some e) message c =
    (Some true,
     mkConn (answered (writer c) (DbErrorResponse h e message)) (calls c) (backend c)).
Proof.
  pose proof (DbErrorResponse_range h e message) as Hr.
  unfold HandleDbError. cbv zeta. unfold mbind, M_bind.
  rewrite JSON_run.
  - reflexivity.
  - now apply bodyAllowedForStatus_error.
  - destruct (written (writer c)) eqn:Hw; [now left | right].
    unfold WriteHeader. rewrite Hw.
    replace (0 <? fst (DbErrorResponse h e message)) with true
      by (symmetry; apply Z.ltb_lt; lia).
    destruct (Z.eqb_spec (status (writer c)) (fst (DbErrorResponse h e message)))
      as [Heq|Hne]; cbn [negb andb status].
    + rewrite Heq. unfold validStatusCode.
      apply andb_true_iff; split; apply Z.leb_le; lia.
    + unfold validStatusCode. apply andb_true_iff; split; apply Z.leb_le; lia.
Qed.

Ltac run :=
  unfold serve, CreateReview, GetReview, GetReviews, UpdateReview, DeleteReview,
    SetReviewImage, BindJSON, ShouldBindJSON, ReturnError, perform,
    mbind, M_bind, mret, M_ret;
  cbn [fst snd writer calls backend app].

Ltac answer :=
  repeat first
    [ rewrite HandleDbError_None
    | rewrite HandleDbError_Some
    | rewrite JSON_new by reflexivity
    | rewrite AbortWithError_new by reflexivity
    | progress cbn [fst snd writer calls backend app] ];
  try reflexivity.

Section Equations.

Context {S : Type} (h : Handler S).

(** [GetReviews], path by path. *)
Lemma GetReviews_eq (ctx : Request) (s : S) :
  serve (GetReviews h ctx) s =
    let businessID := DefaultQuery ctx "business_id" "" in
    if bool_decide (err_of (uuid.Parse businessID) <> None)
       && bool_decide (businessID <> "")
    then mkConn (mkWriter 404 true
                   [JH [("Error:", "Wrong format type please write UUID")]]) [] s
    else
      match GetList (ReviewRepo h) (list_filter ctx) s with
      | ((l, None), s') =>
          mkConn (mkWriter 200 true [JReviewList l]) [CallGetList (list_filter ctx)] s'
      | ((_, Some e), s') =>
          mkConn (answered newWriter (DbErrorResponse h e "Error getting reviews"))
                 [CallGetList (list_filter ctx)] s'
      end.
Proof.
  run. cbv zeta. destruct (_ && _); [now answer|].
  change (mkGetListFilter _ _ _ _) with (list_filter ctx).
  destruct (GetList _ _ _) as [[l [e|]] s']; now answer.
Qed.

Lemma GetReviews_rejected (ctx : Request) (s : S) :
  DefaultQuery ctx "business_id" "" <> "" ->
  err_of (uuid.Parse (DefaultQuery ctx "business_id" "")) <> None ->
  serve (GetReviews h ctx) s =
    mkConn (mkWriter 404 true [JH [("Error:", "Wrong format type please write UUID")]])
           [] s.
Proof.
  intros Hne Herr. rewrite GetReviews_eq. cbv zeta.
  rewrite !bool_decide_eq_true_2 by assumption. reflexivity.
Qed.

Lemma GetReviews_passed (ctx : Request) (s : S) :
  DefaultQuery ctx "business_id" "" = ""
  \/ err_of (uuid.Parse (DefaultQuery ctx "business_id" "")) = None ->
  serve (GetReviews h ctx) s =
    match GetList (ReviewRepo h) (list_filter ctx) s with
    | ((l, None), s') =>
        mkConn (mkWriter 200 true [JReviewList l]) [CallGetList (list_filter ctx)] s'
    | ((_, Some e), s') =>
        mkConn (answered newWriter (DbErrorResponse h e "Error getting reviews"))
               [CallGetList (list_filter ctx)] s'
    end.
Proof.
  intros Hok. rewrite GetReviews_eq. cbv zeta.
  replace (bool_decide (_ <> None) && bool_decide (_ <> "")) with false;
    [reflexivity|].
  symmetry. apply andb_false_iff. destruct Hok as [H|H].
  - right. now apply bool_decide_eq_false_2; intros Hn.
  - left. now apply bool_decide_eq_false_2; intros Hn.
Qed.

Lemma GetReviews_delegated (ctx : Request) (s : S) :
  DefaultQuery ctx "business_id" "" = ""
  \/ err_of (uuid.Parse (DefaultQuery ctx "business_id" "")) = None ->
  calls (serve (GetReviews h ctx) s) = [CallGetList (list_filter ctx)].
Proof.
  intros Hok. rewrite GetReviews_passed by assumption.
  destruct (GetList _ _ _) as [[l [e|]] s']; reflexivity.
Qed.

Lemma GetReviews_calls (ctx : Request) (s : S) :
  calls (serve (GetReviews h ctx) s) = []
  \/ calls (serve (GetReviews h ctx) s) = [CallGetList (list_filter ctx)].
Proof.
  destruct (decide (DefaultQuery ctx "business_id" "" = "")) as [He|Hne].
  - right. apply GetReviews_delegated. now left.
  - destruct (err_of (uuid.Parse (DefaultQuery ctx "business_id" ""))) eqn:Hp.
    + left. rewrite GetReviews_rejected; [reflexivity|assumption|congruence].
    + right. apply GetReviews_delegated. now right.
Qed.

(** [CreateReview], path by path: a body that does not bind leaves the
    status 400 sent before the error mapper writes its envelope. *)
Lemma CreateReview_eq (ctx : Request) (s : S) :
  serve (CreateReview h ctx) s =
    match JSONBody ctx with
    | (_, Some e) =>
        mkConn (answered (mkWriter 400 true [])
                  (DbErrorResponse h e "Error getting review")) [] s
    | (req, None) =>
        let req := with_UserID req (GetHeader ctx "sub") in
        match Create (ReviewRepo h) req s with
        | ((res, None), s') => mkConn (mkWriter 200 true [JReview res]) [CallCreate req] s'
        | ((_, Some e), s') =>
            mkConn (answered newWriter (DbErrorResponse h e "Error creating review"))
                   [CallCreate req] s'
        end
    end.
Proof.
  run. destruct (JSONBody ctx) as [req [e|]]; answer.
  destruct (Create _ _ _) as [[res [e|]] s']; now answer.
Qed.

Lemma UpdateReview_eq (ctx : Request) (s : S) :
  serve (UpdateReview h ctx) s =
    match JSONBody ctx with
    | (_, Some _) =>
        mkConn (mkWriter 400 true
                  [JErrorResponse (mkErrorResponse (ErrorBadRequest h)
                                     "Invalid request body")]) [] s
    | (body, None) =>
        match Update (ReviewRepo h) body s with
        | ((review, None), s') =>
            mkConn (mkWriter 200 true [JReview review]) [CallUpdate body] s'
        | ((_, Some e), s') =>
            mkConn (answered newWriter (DbErrorResponse h e "Error updating review"))
                   [CallUpdate body] s'
        end
    end.
Proof.
  run. destruct (JSONBody ctx) as [body [e|]]; answer.
  destruct (Update _ _ _) as [[review [e|]] s']; now answer.
Qed.

Lemma GetReview_eq (ctx : Request) (s : S) :
  serve (GetReview h ctx) s =
    let req := mkId (Param ctx "id") in
    match GetSingle (ReviewRepo h) req s with
    | ((review, None), s') =>
        mkConn (mkWriter 200 true [JReview review]) [CallGetSingle req] s'
    | ((_, Some e), s') =>
        mkConn (answered newWriter (DbErrorResponse h e "Error getting review"))
               [CallGetSingle req] s'
    end.
Proof.
  run. destruct (GetSingle _ _ _) as [[review [e|]] s']; now answer.
Qed.

Lemma DeleteReview_eq (ctx : Request) (s : S) :
  serve (DeleteReview h ctx) s =
    let req := mkId (Param ctx "id") in
    match Delete (ReviewRepo h) req s with
    | (None, s') =>
        mkConn (mkWriter 200 true
                  [JSuccessResponse (mkSuccessResponse "Review deleted successfully")])
               [CallDelete req] s'
    | (Some e, s') =>
        mkConn (answered newWriter (DbErrorResponse h e "Error deleting review"))
               [CallDelete req] s'
    end.
Proof.
  run. destruct (Delete _ _ _) as [[e|] s']; now answer.
Qed.

(** [SetReviewImage], path by path. *)
Lemma SetReviewImage_eq (ctx : Request) (s : S) :
  serve (SetReviewImage h ctx) s =
    let reviewID := Param ctx "id" in
    if bool_decide (reviewID = "") then
      mkConn (mkWriter 400 true
                [JErrorResponse (mkErrorResponse (ErrorBadRequest h)
                                   "Review ID is required in path")]) [] s
    else
      match FormFile ctx "file" with
      | (_, Some _) =>
          mkConn (mkWriter 400 true
                    [JErrorResponse (mkErrorResponse (ErrorBadRequest h)
                                       "Error getting file")]) [] s
      | (file, None) =>
          let tempPath := "/tmp/" +:+ Filename file in
          let saved := CallSaveUploadedFile file tempPath in
          match SaveUploadedFile ctx file tempPath with
          | Some e => mkConn (mkWriter 500 true [JError e]) [saved] s
          | None =>
              let filename := uuid_New_String ctx +:+ "-" +:+ Filename file in
              let uploaded := CallUpload filename tempPath in
              match MinIO_Upload h filename tempPath s with
              | ((_, Some e), s1) =>
                  mkConn (answered newWriter
                            (DbErrorResponse h e "Error uploading review image"))
                         [saved; uploaded] s1
              | ((minioURL, None), s1) =>
                  let updateReq := image_update reviewID minioURL in
                  match Update (ReviewRepo h) updateReq s1 with
                  | ((_, Some e), s2) =>
                      mkConn (answered newWriter
                                (DbErrorResponse h e "Error updating review image"))
                             [saved; uploaded; CallUpdate updateReq] s2
                  | ((updatedReview, None), s2) =>
                      mkConn (mkWriter 200 true [JReview updatedReview])
                             [saved; uploaded; CallUpdate updateReq] s2
                  end
              end
          end
      end.
Proof.
  run. cbv zeta. case_bool_decide; [now answer|].
  destruct (FormFile ctx "file") as [file [e|]]; [now answer|].
  destruct (SaveUploadedFile ctx file _) as [e|]; [now answer|]. answer.
  destruct (MinIO_Upload h _ _ s) as [[minioURL [e|]] s1]; [now answer|]. answer.
  change (mkReview (Param ctx "id") "" "" 0 "" minioURL "")
    with (image_update (Param ctx "id") minioURL).
  destruct (Update _ _ s1) as [[updatedReview [e|]] s2]; now answer.
Qed.

(** The envelope of the error mapper: one body, and the status already
    sent, if any, is kept. *)
Lemma answered_body (w : ResponseWriter) (r : Z * ErrorResponse) :
  body (answered w r) = body w ++ [JErrorResponse (snd r)]
  /\ written (answered w r) = true.
Proof.
  unfold answered, Write, WriteHeader.
  destruct (_ && _); [destruct (written w)|]; auto.
Qed.

Lemma answered_sent (w : ResponseWriter) (r : Z * ErrorResponse) :
  written w = true -> status (answered w r) = status w.
Proof.
  intros Hw. unfold answered, Write, WriteHeader.
  destruct (_ && _); [rewrite Hw|]; reflexivity.
Qed.

Lemma answered_new (r : Z * ErrorResponse) :
  exists code, answered newWriter r = mkWriter code true [JErrorResponse (snd r)].
Proof.
  unfold answered, Write, WriteHeader, newWriter; cbn.
  destruct (_ && _); eauto.
Qed.

End Equations.

(** ** The review list *)

(** C1, refuted: a canonical UUID with one more byte before and after it
    denotes no UUID, yet [uuid.Parse] accepts every text of 38 bytes whose
    middle is canonical, and [GetReviews] passes it on to [GetList] and
    answers 200. *)
Lemma GetReviews_wrapped_uuid_reaches_repository :
  uuid.well_formed "x3fa85f64-5717-4562-b3fc-2c963f66afa6y" = false
  /\ "x3fa85f64-5717-4562-b3fc-2c963f66afa6y" <> ""
  /\ calls (serve (GetReviews Demo.h
                     (Demo.list_request
                        (Demo.query1 "business_id"
                           "x3fa85f64-5717-4562-b3fc-2c963f66afa6y"))) Demo.db) =
       [CallGetList
          (mkGetListFilter 1 10
             [mkFilter "business_id" "eq" "x3fa85f64-5717-4562-b3fc-2c963f66afa6y"]
             [mkOrderBy "created_at" "desc"])]
  /\ writer (serve (GetReviews Demo.h
                      (Demo.list_request
                         (Demo.query1 "business_id"
                            "x3fa85f64-5717-4562-b3fc-2c963f66afa6y"))) Demo.db) =
       mkWriter 200 true [JReviewList (mkReviewList [] 0)].
Proof.
  split; [vm_compute; reflexivity|]. split; [discriminate|].
  split; vm_compute; reflexivity.
Qed.

(** C1, amended. A GET /review/list request whose [business_id] is non-empty
    and is refused by [uuid.Parse] is answered with status 404 and the body
    [{"Error:": "Wrong format type please write UUID"}]; the handler makes no
    call at all, so the repository's [GetList] is not called and the
    collaborators' state is untouched. *)
Theorem GetReviews_malformed_business_id
  {S : Type} (h : Handler S) (ctx : Request) (s : S) (b : string) (e : error) :
  GetQuery ctx "business_id" = Some b ->
  b <> "" ->
  uuid.Parse b = Err e ->
  writer (serve (GetReviews h ctx) s) =
    mkWriter 404 true [JH [("Error:", "Wrong format type please write UUID")]]
  /\ calls (serve (GetReviews h ctx) s) = []
  /\ backend (serve (GetReviews h ctx) s) = s.
Proof.
  intros Hq Hne Hp.
  assert (Hb : DefaultQuery ctx "business_id" "" = b)
    by (unfold DefaultQuery; now rewrite Hq).
  rewrite GetReviews_rejected; [auto | | ]; rewrite Hb; [assumption|].
  rewrite Hp. discriminate.
Qed.

Lemma GetReviews_malformed_business_id_witness :
  writer (serve (GetReviews Demo.h
                   (Demo.list_request (Demo.query1 "business_id" "not-a-uuid")))
                Demo.db) =
    mkWriter 404 true [JH [("Error:", "Wrong format type please write UUID")]]
  /\ calls (serve (GetReviews Demo.h
                     (Demo.list_request (Demo.query1 "business_id" "not-a-uuid")))
                  Demo.db) = []
  /\ backend (serve (GetReviews Demo.h
                       (Demo.list_request (Demo.query1 "business_id" "not-a-uuid")))
                    Demo.db) = Demo.db.
Proof.
  apply (GetReviews_malformed_business_id Demo.h _ Demo.db "not-a-uuid"
           "invalid UUID length").
  - reflexivity.
  - discriminate.
  - reflexivity.
Defined.

(** C3, refuted: a [page] that is not a number but opens with a run of digits
    too long for [int] is not read as 0; [strconv.Atoi] reports a range error
    before it reaches the letter, and the handler keeps the clamped value. *)
Lemma GetReviews_page_overflow_before_letter :
  strconv.is_decimal "99999999999999999999x" = false
  /\ calls (serve (GetReviews Demo.failing
                     (Demo.list_request (Demo.query1 "page" "99999999999999999999x")))
                  tt) =
       [CallGetList (mkGetListFilter 9223372036854775807 10
                       [mkFilter "business_id" "eq" ""]
                       [mkOrderBy "created_at" "desc"])].
Proof.
  split; vm_compute; reflexivity.
Qed.

(** C3, amended. Whenever [GetReviews] gets past the [business_id] check, it
    calls [GetList] with a filter whose [Page] is 1 when [page] is absent and
    whose [Limit] is 10 when [limit] is absent; a [page] or [limit] that is
    present and that [strconv.Atoi] refuses as a syntax error, as it does
    every input under 19 bytes that is not an optionally signed run of
    digits, leaves the field 0, and the request is still passed on rather
    than refused. *)
Theorem GetReviews_page_and_limit
  {S : Type} (h : Handler S) (ctx : Request) (s : S) :
  DefaultQuery ctx "business_id" "" = ""
  \/ err_of (uuid.Parse (DefaultQuery ctx "business_id" "")) = None ->
  exists f,
    calls (serve (GetReviews h ctx) s) = [CallGetList f]
    /\ (GetQuery ctx "page" = None -> Page f = 1)
    /\ (GetQuery ctx "limit" = None -> Limit f = 10)
    /\ (forall p, GetQuery ctx "page" = Some p ->
                  snd (strconv.Atoi p) = Some strconv.ErrSyntax -> Page f = 0)
    /\ (forall l, GetQuery ctx "limit" = Some l ->
                  snd (strconv.Atoi l) = Some strconv.ErrSyntax -> Limit f = 0)
    /\ (forall p, GetQuery ctx "page" = Some p -> (String.length p < 19)%nat ->
                  strconv.is_decimal p = false -> Page f = 0)
    /\ (forall l, GetQuery ctx "limit" = Some l -> (String.length l < 19)%nat ->
                  strconv.is_decimal l = false -> Limit f = 0).
Proof.
  intros Hok. exists (list_filter ctx). split; [now apply GetReviews_delegated|].
  unfold list_filter, DefaultQuery; cbn [Page Limit].
  repeat split.
  - intros ->. reflexivity.
  - intros ->. reflexivity.
  - intros p -> Hp. now apply Atoi_syntax_zero.
  - intros l -> Hl. now apply Atoi_syntax_zero.
  - intros p -> Hlen Hp. now rewrite Atoi_not_decimal.
  - intros l -> Hlen Hl. now rewrite Atoi_not_decimal.
Qed.

Lemma GetReviews_page_and_limit_witness :
  exists f,
    calls (serve (GetReviews Demo.h (Demo.list_request (Demo.query1 "page" "abc")))
                 Demo.db) = [CallGetList f]
    /\ Page f = 0 /\ Limit f = 10.
Proof.
  destruct (GetReviews_page_and_limit Demo.h
              (Demo.list_request (Demo.query1 "page" "abc")) Demo.db)
    as (f & Hc & _ & Hl & Hp & _).
  - left. reflexivity.
  - exists f. split; [exact Hc|]. split.
    + apply (Hp "abc"); reflexivity.
    + apply Hl. reflexivity.
Defined.

(** C4. Every request that gets past the [business_id] check reaches the
    repository's [GetList], once, with a filter whose order-by clauses are
    exactly [created_at] [desc]; no other filter is ever passed to
    [GetList]. *)
Theorem GetReviews_default_ordering
  {S : Type} (h : Handler S) (ctx : Request) (s : S) :
  (DefaultQuery ctx "business_id" "" = ""
   \/ err_of (uuid.Parse (DefaultQuery ctx "business_id" "")) = None ->
   exists f,
     calls (serve (GetReviews h ctx) s) = [CallGetList f]
     /\ GetListFilter_OrderBy f = [mkOrderBy "created_at" "desc"])
  /\ (forall f, In (CallGetList f) (calls (serve (GetReviews h ctx) s)) ->
                 GetListFilter_OrderBy f = [mkOrderBy "created_at" "desc"]).
Proof.
  split.
  - intros Hok. exists (list_filter ctx). split; [|reflexivity].
    now apply GetReviews_delegated.
  - intros f Hin. destruct (GetReviews_calls h ctx s) as [Hc|Hc]; rewrite Hc in Hin.
    + destruct Hin.
    + destruct Hin as [Heq|[]]. injection Heq as <-. reflexivity.
Qed.

Lemma GetReviews_default_ordering_witness :
  exists f,
    calls (serve (GetReviews Demo.h
                    (Demo.list_request
                       (Demo.query1 "business_id"
                          "3fa85f64-5717-4562-b3fc-2c963f66afa6"))) Demo.db) =
      [CallGetList f]
    /\ GetListFilter_OrderBy f = [mkOrderBy "created_at" "desc"].
Proof.
  apply (proj1 (GetReviews_default_ordering Demo.h
                  (Demo.list_request
                     (Demo.query1 "business_id"
                        "3fa85f64-5717-4562-b3fc-2c963f66afa6")) Demo.db)).
  right. vm_compute. reflexivity.
Defined.

(** With [business_id] absent or empty, [GetReviews] skips the UUID check and
    calls [GetList] once, with the page and limit read from the query, the
    single filter triple [business_id eq ""] and the default ordering; when
    [GetList] reports no error the answer is 200 with the list it returned. *)
Lemma GetReviews_empty_business_id
  {S : Type} (h : Handler S) (ctx : Request) (s : S) :
  DefaultQuery ctx "business_id" "" = "" ->
  let req := mkGetListFilter
               (fst (strconv.Atoi (DefaultQuery ctx "page" "1")))
               (fst (strconv.Atoi (DefaultQuery ctx "limit" "10")))
               [mkFilter "business_id" "eq" ""]
               [mkOrderBy "created_at" "desc"] in
  calls (serve (GetReviews h ctx) s) = [CallGetList req]
  /\ forall l s',
       GetList (ReviewRepo h) req s = ((l, None), s') ->
       writer (serve (GetReviews h ctx) s) = mkWriter 200 true [JReviewList l]
       /\ backend (serve (GetReviews h ctx) s) = s'.
Proof.
  intros He req.
  assert (Hreq : list_filter ctx = req) by (unfold list_filter, req; now rewrite He).
  split.
  - rewrite <- Hreq. apply GetReviews_delegated. now left.
  - intros l s' Hg. rewrite GetReviews_passed by now left.
    rewrite Hreq, Hg. auto.
Qed.

(** The repository of the contract sorts without losing or adding a row. *)
Lemma SpecRepo_insert_sorted_perm cmp (r : Review) (l : list Review) :
  SpecRepo.insert_sorted cmp r l ≡ₚ r :: l.
Proof.
  induction l as [|x l IH]; cbn [SpecRepo.insert_sorted]; [reflexivity|].
  destruct (cmp r x); try reflexivity.
  rewrite IH. apply Permutation_swap.
Qed.

Lemma SpecRepo_sort_perm cmp (l : list Review) : SpecRepo.sort cmp l ≡ₚ l.
Proof.
  unfold SpecRepo.sort. induction l as [|x l IH]; cbn [foldr]; [reflexivity|].
  now rewrite SpecRepo_insert_sorted_perm, IH.
Qed.

Lemma SpecRepo_rows_length (db : gmap string Review) :
  length (SpecRepo.rows db) = size db.
Proof.
  unfold SpecRepo.rows. now rewrite length_fmap, length_map_to_list.
Qed.

Lemma filter_all (p : Review -> bool) (l : list Review) :
  (forall r, p r = true) -> filter (fun r => p r = true) l = l.
Proof.
  intros Hp. induction l as [|x l IH]; [reflexivity|].
  rewrite filter_cons_True by apply Hp. now rewrite IH.
Qed.

(** Over the repository of the contract, a filter whose only triple is
    [business_id eq ""] keeps every row. *)
Lemma SpecRepo_GetList_unfiltered (req : GetListFilter) (db : gmap string Review) :
  Filters req = [mkFilter "business_id" "eq" ""] ->
  GetListFilter_OrderBy req = [mkOrderBy "created_at" "desc"] ->
  exists cmp,
    SpecRepo.GetList req db =
      ((mkReviewList
          (take (Z.to_nat (Limit req))
             (drop (Z.to_nat ((Page req - 1) * Limit req))
                (SpecRepo.sort cmp (SpecRepo.rows db))))
          (Z.of_nat (size db)), None), db).
Proof.
  intros Hf Ho. unfold SpecRepo.GetList. rewrite Hf, Ho.
  change (SpecRepo.predicates [mkFilter "business_id" "eq" ""])
    with (Some (fun _ : Review => true && true)).
  destruct (SpecRepo.ordering [mkOrderBy "created_at" "desc"]) as [cmp|] eqn:Hcmp;
    [|discriminate Hcmp].
  exists cmp. cbv zeta. rewrite filter_all by reflexivity.
  rewrite (Permutation_length (SpecRepo_sort_perm cmp _)), SpecRepo_rows_length.
  reflexivity.
Qed.

(** C2. Over the repository of the contract, which does not apply a filter on
    the empty string, a GET /review/list request whose [business_id] is
    absent or empty is answered 200 with a list that counts every stored
    review: the triple the handler passes, [business_id eq ""], is no
    effective predicate. With the first page and a limit that covers them,
    the reviews listed are all the stored ones. *)
Theorem GetReviews_empty_business_id_lists_all
  fresh upload mapping badRequest (ctx : Request) (db : gmap string Review) :
  DefaultQuery ctx "business_id" "" = "" ->
  exists l,
    serve (GetReviews (SpecRepo.handler fresh upload mapping badRequest) ctx) db =
      mkConn (mkWriter 200 true [JReviewList l]) [CallGetList (list_filter ctx)] db
    /\ Filters (list_filter ctx) = [mkFilter "business_id" "eq" ""]
    /\ SpecRepo.predicate (mkFilter "business_id" "eq" "") = Some (fun _ => true)
    /\ Count l = Z.of_nat (size db)
    /\ (Page (list_filter ctx) = 1 ->
        Z.of_nat (size db) <= Limit (list_filter ctx) ->
        Reviews l ≡ₚ SpecRepo.rows db).
Proof.
  intros He.
  assert (Hf : Filters (list_filter ctx) = [mkFilter "business_id" "eq" ""])
    by (unfold list_filter; cbn [Filters]; now rewrite He).
  destruct (SpecRepo_GetList_unfiltered (list_filter ctx) db Hf eq_refl) as [cmp Hg].
  eexists. split; [|split; [exact Hf|split; [reflexivity|split]]].
  - rewrite GetReviews_passed by now left.
    change (GetList (ReviewRepo (SpecRepo.handler fresh upload mapping badRequest)))
      with SpecRepo.GetList.
    rewrite Hg. reflexivity.
  - reflexivity.
  - cbn [Reviews]. intros Hpage Hlimit. rewrite Hpage.
    change (Z.to_nat ((1 - 1) * Limit (list_filter ctx))) with 0%nat.
    rewrite drop_0, take_ge.
    + apply SpecRepo_sort_perm.
    + rewrite (Permutation_length (SpecRepo_sort_perm cmp _)), SpecRepo_rows_length. lia.
Qed.

Lemma GetReviews_empty_business_id_lists_all_witness :
  exists l,
    writer (serve (GetReviews Demo.h (Demo.list_request Demo.noQuery)) Demo.db) =
      mkWriter 200 true [JReviewList l]
    /\ Count l = 2
    /\ Reviews l ≡ₚ [Demo.review1; Demo.review2].
Proof.
  destruct (GetReviews_empty_business_id_lists_all Demo.fresh Demo.upload Demo.mapping
              "BAD_REQUEST" (Demo.list_request Demo.noQuery) Demo.db eq_refl)
    as (l & Hs & _ & _ & Hc & Hall).
  exists l. fold Demo.h in Hs. rewrite Hs. split; [reflexivity|]. split.
  - rewrite Hc. vm_compute. reflexivity.
  - rewrite Hall; [| reflexivity | vm_compute; discriminate].
    vm_compute. first [reflexivity | apply Permutation_swap].
Defined.

(** ** Creating and updating a review *)

(** C5. The review [CreateReview] passes to the repository's [Create] is the
    decoded body with [UserID] replaced by the header [sub]; and two requests
    with the same [sub] whose bodies differ only in [user_id] are served
    identically: same calls, same answer, same final state. *)
Theorem CreateReview_identity_from_header
  {S : Type} (h : Handler S) (ctx : Request) (s : S) :
  (forall r, In (CallCreate r) (calls (serve (CreateReview h ctx) s)) ->
             UserID r = GetHeader ctx "sub")
  /\ (snd (JSONBody ctx) = None ->
      calls (serve (CreateReview h ctx) s) =
        [CallCreate (with_UserID (fst (JSONBody ctx)) (GetHeader ctx "sub"))])
  /\ (forall (ctx' : Request) (u : string),
        GetHeader ctx' "sub" = GetHeader ctx "sub" ->
        JSONBody ctx' = (with_UserID (fst (JSONBody ctx)) u, snd (JSONBody ctx)) ->
        serve (CreateReview h ctx') s = serve (CreateReview h ctx) s).
Proof.
  repeat split.
  - intros r. rewrite CreateReview_eq.
    destruct (JSONBody ctx) as [req [e|]]; cbn; [tauto|].
    destruct (Create _ _ _) as [[res [e|]] s']; cbn;
      intros [Heq|[]]; injection Heq as <-; reflexivity.
  - rewrite CreateReview_eq.
    destruct (JSONBody ctx) as [req [e|]]; cbn; [discriminate|]. intros _.
    destruct (Create _ _ _) as [[res [e|]] s']; reflexivity.
  - intros ctx' u Hsub Hbody. rewrite !CreateReview_eq, Hbody, Hsub.
    destruct (JSONBody ctx) as [req [e|]]; reflexivity.
Qed.

Lemma CreateReview_identity_from_header_witness :
  calls (serve (CreateReview Demo.h
                  (Demo.request Demo.noQuery "" "u-7" (Demo.review1, None)
                     (mkFileHeader "", Some "no file") None "")) Demo.db) =
    [CallCreate (with_UserID Demo.review1 "u-7")]
  /\ serve (CreateReview Demo.h
              (Demo.request Demo.noQuery "" "u-7"
                 (with_UserID Demo.review1 "mallory", None)
                 (mkFileHeader "", Some "no file") None "")) Demo.db =
     serve (CreateReview Demo.h
              (Demo.request Demo.noQuery "" "u-7" (Demo.review1, None)
                 (mkFileHeader "", Some "no file") None "")) Demo.db.
Proof.
  pose proof (CreateReview_identity_from_header Demo.h
                (Demo.request Demo.noQuery "" "u-7" (Demo.review1, None)
                   (mkFileHeader "", Some "no file") None "") Demo.db)
    as (_ & Hcall & Hsame).
  split.
  - apply Hcall. reflexivity.
  - apply (Hsame _ "mallory"); reflexivity.
Defined.

(** C6. When the JSON body does not bind, neither handler calls the
    repository, but only [UpdateReview] answers as a bad request, with the
    code [config.ErrorBadRequest]. [CreateReview] hands the bind error to the
    database error mapper under the message [Error getting review]: its
    envelope is the one the mapper makes of it, and its status is 400 only
    because [BindJSON] has sent it before. *)
Theorem body_mutations_reject_unbound_body
  {S : Type} (h : Handler S) (ctx : Request) (s : S) (e : error) :
  snd (JSONBody ctx) = Some e ->
  (status (writer (serve (CreateReview h ctx) s)) = 400
   /\ body (writer (serve (CreateReview h ctx) s)) =
        [JErrorResponse (snd (DbErrorResponse h e "Error getting review"))]
   /\ calls (serve (CreateReview h ctx) s) = []
   /\ backend (serve (CreateReview h ctx) s) = s)
  /\ (writer (serve (UpdateReview h ctx) s) =
        mkWriter 400 true
          [JErrorResponse (mkErrorResponse (ErrorBadRequest h) "Invalid request body")]
      /\ calls (serve (UpdateReview h ctx) s) = []
      /\ backend (serve (UpdateReview h ctx) s) = s).
Proof.
  intros Hb. rewrite CreateReview_eq, UpdateReview_eq.
  destruct (JSONBody ctx) as [req [e'|]]; cbn in Hb; [|discriminate].
  injection Hb as ->. cbn [writer calls backend].
  split; [|auto].
  split; [now rewrite answered_sent|].
  split; [|auto]. now destruct (answered_body (mkWriter 400 true [])
                                  (DbErrorResponse h e "Error getting review")) as [-> _].
Qed.

Lemma body_mutations_reject_unbound_body_witness :
  writer (serve (CreateReview Demo.h (Demo.list_request Demo.noQuery)) Demo.db) =
    mkWriter 400 true
      [JErrorResponse (mkErrorResponse "DATABASE_ERROR" "database error")]
  /\ writer (serve (UpdateReview Demo.h (Demo.list_request Demo.noQuery)) Demo.db) =
       mkWriter 400 true
         [JErrorResponse (mkErrorResponse "BAD_REQUEST" "Invalid request body")].
Proof.
  pose proof (body_mutations_reject_unbound_body Demo.h
                (Demo.list_request Demo.noQuery) Demo.db "EOF" eq_refl)
    as [(Hstatus & Hbody & _) (Hu & _)].
  split; [|exact Hu].
  destruct (writer (serve (CreateReview Demo.h (Demo.list_request Demo.noQuery)) Demo.db))
    as [st wr bd] eqn:Hw.
  cbn [status body] in Hstatus, Hbody. rewrite Hstatus, Hbody.
  assert (Hwr : written (writer (serve (CreateReview Demo.h
                                          (Demo.list_request Demo.noQuery)) Demo.db)) = true)
    by (vm_compute; reflexivity).
  rewrite Hw in Hwr. cbn [written] in Hwr. rewrite Hwr. reflexivity.
Defined.

(** ** Path-identified operations and the image upload *)

Lemma string_app_assoc (a b c : string) : (a +:+ b) +:+ c = a +:+ b +:+ c.
Proof.
  induction a as [|x a IH]; [reflexivity|].
  change (String x ((a +:+ b) +:+ c) = String x (a +:+ b +:+ c)). now rewrite IH.
Qed.

Lemma string_app_empty_r (a : string) : a +:+ "" = a.
Proof.
  induction a as [|x a IH]; [reflexivity|].
  change (String x (a +:+ "") = String x a). now rewrite IH.
Qed.

Lemma contains_suffix_of_part (pre sub s : string) :
  contains (pre +:+ sub) s -> contains sub s.
Proof.
  intros (l & r & ->). exists (l +:+ pre), r.
  now rewrite !string_app_assoc.
Qed.

Section Upload.

Context {S : Type} (h : Handler S).

(** The successful path of [SetReviewImage]. *)
Lemma SetReviewImage_uploaded (ctx : Request) (s s1 s2 : S)
      (file : FileHeader) (url : string) (r : Review) :
  let tempPath := "/tmp/" +:+ Filename file in
  let key := uuid_New_String ctx +:+ "-" +:+ Filename file in
  Param ctx "id" <> "" ->
  FormFile ctx "file" = (file, None) ->
  SaveUploadedFile ctx file tempPath = None ->
  MinIO_Upload h key tempPath s = ((url, None), s1) ->
  Update (ReviewRepo h) (image_update (Param ctx "id") url) s1 = ((r, None), s2) ->
  serve (SetReviewImage h ctx) s =
    mkConn (mkWriter 200 true [JReview r])
           [CallSaveUploadedFile file tempPath; CallUpload key tempPath;
            CallUpdate (image_update (Param ctx "id") url)] s2.
Proof.
  intros tempPath key Hid Hfile Hsave Hup Hupd.
  rewrite SetReviewImage_eq. cbv zeta.
  rewrite bool_decide_eq_false_2 by assumption.
  rewrite Hfile. fold tempPath. rewrite Hsave. fold key. rewrite Hup, Hupd.
  reflexivity.
Qed.

(** Any [Update] that [SetReviewImage] issues carries [image_update]. *)
Lemma SetReviewImage_update_call (ctx : Request) (s : S) (r : Review) :
  In (CallUpdate r) (calls (serve (SetReviewImage h ctx) s)) ->
  exists url, r = image_update (Param ctx "id") url.
Proof.
  rewrite SetReviewImage_eq. cbv zeta.
  case_bool_decide; [intros []|].
  destruct (FormFile ctx "file") as [file [e|]]; [intros []|].
  destruct (SaveUploadedFile ctx file _) as [e|];
    [intros [Hd|[]]; discriminate|].
  destruct (MinIO_Upload h _ _ s) as [[url [e|]] s1];
    [intros [Hd|[Hd|[]]]; discriminate|].
  destruct (Update _ _ s1) as [[u [e|]] s2];
    (intros [Hd|[Hd|[Hd|[]]]]; try discriminate;
     injection Hd as <-; now exists url).
Qed.

End Upload.

(** [SetReviewImage] never reads a review back from the repository. *)
Lemma SetReviewImage_never_fetches
      {S : Type} (h : Handler S) (ctx : Request) (s : S) (id : Id) :
  ~ In (CallGetSingle id) (calls (serve (SetReviewImage h ctx) s)).
Proof.
  rewrite SetReviewImage_eq. cbv zeta.
  case_bool_decide; [intros []|].
  destruct (FormFile ctx "file") as [file [e|]]; [intros []|].
  destruct (SaveUploadedFile ctx file _) as [e|];
    [intros [Hd|[]]; discriminate|].
  destruct (MinIO_Upload h _ _ s) as [[url [e|]] s1];
    [intros [Hd|[Hd|[]]]; discriminate|].
  destruct (Update _ _ s1) as [[u [e|]] s2];
    intros [Hd|[Hd|[Hd|[]]]]; discriminate.
Qed.

(** The repository of the contract stores what [Update] is given. *)
Lemma SpecRepo_Update_known (db : gmap string Review) (r old : Review) :
  db !! ID r = Some old ->
  SpecRepo.Update r db = ((r, None), <[ID r := r]> db).
Proof.
  intros Hold. unfold SpecRepo.Update. now rewrite Hold.
Qed.

Lemma SetReviewImage_stored
      fresh upload mapping badRequest (ctx : Request) (db : gmap string Review)
      (file : FileHeader) (url : string) (old : Review) :
  let h := SpecRepo.handler fresh upload mapping badRequest in
  let tempPath := "/tmp/" +:+ Filename file in
  let key := uuid_New_String ctx +:+ "-" +:+ Filename file in
  let r := image_update (Param ctx "id") url in
  Param ctx "id" <> "" ->
  FormFile ctx "file" = (file, None) ->
  SaveUploadedFile ctx file tempPath = None ->
  upload key tempPath = (url, None) ->
  db !! Param ctx "id" = Some old ->
  serve (SetReviewImage h ctx) db =
    mkConn (mkWriter 200 true [JReview r])
           [CallSaveUploadedFile file tempPath; CallUpload key tempPath; CallUpdate r]
           (<[Param ctx "id" := r]> db).
Proof.
  intros h tempPath key r Hid Hfile Hsave Hup Hold.
  apply (SetReviewImage_uploaded h ctx db db _ file url r); try assumption.
  - cbn. fold tempPath key. now rewrite Hup.
  - cbn. apply (SpecRepo_Update_known db r old). exact Hold.
Qed.

(** C7. When saving the uploaded file fails, [SetReviewImage] answers with
    status 500 and the error itself as the body, after the one call that
    saves the file. Every other outcome of the handler is either the review
    with status 200 or a [{code, message}] envelope. *)
Theorem SetReviewImage_save_failure
  {S : Type} (h : Handler S) (ctx : Request) (s : S) :
  (forall (file : FileHeader) (e : error),
      Param ctx "id" <> "" ->
      FormFile ctx "file" = (file, None) ->
      SaveUploadedFile ctx file ("/tmp/" +:+ Filename file) = Some e ->
      writer (serve (SetReviewImage h ctx) s) = mkWriter 500 true [JError e]
      /\ calls (serve (SetReviewImage h ctx) s) =
           [CallSaveUploadedFile file ("/tmp/" +:+ Filename file)]
      /\ backend (serve (SetReviewImage h ctx) s) = s)
  /\ ((exists r, writer (serve (SetReviewImage h ctx) s) = mkWriter 200 true [JReview r])
      \/ (exists code resp,
             writer (serve (SetReviewImage h ctx) s) =
               mkWriter code true [JErrorResponse resp])
      \/ (exists file e,
             FormFile ctx "file" = (file, None)
             /\ SaveUploadedFile ctx file ("/tmp/" +:+ Filename file) = Some e
             /\ writer (serve (SetReviewImage h ctx) s) = mkWriter 500 true [JError e])).
Proof.
  rewrite SetReviewImage_eq. cbv zeta. split.
  - intros file e Hid Hfile Hsave.
    rewrite bool_decide_eq_false_2 by assumption.
    rewrite Hfile, Hsave. auto.
  - case_bool_decide; [right; left; eauto|].
    destruct (FormFile ctx "file") as [file [e|]]; [right; left; eauto|].
    destruct (SaveUploadedFile ctx file _) as [e|] eqn:Hsave;
      [right; right; exists file, e; auto|].
    destruct (MinIO_Upload h _ _ s) as [[url [e|]] s1].
    { right; left. destruct (answered_new (DbErrorResponse h e "Error uploading review image"))
        as [code Hc]. cbn [writer]. rewrite Hc. eauto. }
    destruct (Update _ _ s1) as [[u [e|]] s2]; [|left; eauto].
    right; left. destruct (answered_new (DbErrorResponse h e "Error updating review image"))
      as [code Hc]. cbn [writer]. rewrite Hc. eauto.
Qed.

Lemma SetReviewImage_save_failure_witness :
  writer (serve (SetReviewImage Demo.h
                   (Demo.image_request "7c9e6679-7425-40de-944b-e07fc1f90ae7"
                      "cat.png" "4b1f" (Some "disk full"))) Demo.db) =
    mkWriter 500 true [JError "disk full"].
Proof.
  apply (proj1 (SetReviewImage_save_failure Demo.h
                  (Demo.image_request "7c9e6679-7425-40de-944b-e07fc1f90ae7"
                     "cat.png" "4b1f" (Some "disk full")) Demo.db)
           (mkFileHeader "cat.png") "disk full").
  - discriminate.
  - reflexivity.
  - reflexivity.
Defined.

(** C8. Over the repository of the contract, two successful uploads in a row
    for one stored review: each answers 200 with the review whose [Photos] is
    the URL [Upload] returned for the key [<uuid>-<file name>] of that
    request, and after the second the stored [Photos] is the second URL alone.
    When the store's URLs contain the key, they contain the file name. *)
Theorem SetReviewImage_sets_photos
  fresh upload mapping badRequest (ctx1 ctx2 : Request) (db : gmap string Review)
  (file1 file2 : FileHeader) (url1 url2 : string) (old : Review) :
  let h := SpecRepo.handler fresh upload mapping badRequest in
  let id := Param ctx1 "id" in
  let key1 := uuid_New_String ctx1 +:+ "-" +:+ Filename file1 in
  let key2 := uuid_New_String ctx2 +:+ "-" +:+ Filename file2 in
  let db1 := backend (serve (SetReviewImage h ctx1) db) in
  let db2 := backend (serve (SetReviewImage h ctx2) db1) in
  id <> "" -> Param ctx2 "id" = id ->
  db !! id = Some old ->
  FormFile ctx1 "file" = (file1, None) ->
  FormFile ctx2 "file" = (file2, None) ->
  SaveUploadedFile ctx1 file1 ("/tmp/" +:+ Filename file1) = None ->
  SaveUploadedFile ctx2 file2 ("/tmp/" +:+ Filename file2) = None ->
  upload key1 ("/tmp/" +:+ Filename file1) = (url1, None) ->
  upload key2 ("/tmp/" +:+ Filename file2) = (url2, None) ->
  (exists r1,
      writer (serve (SetReviewImage h ctx1) db) = mkWriter 200 true [JReview r1]
      /\ ID r1 = id /\ Photos r1 = url1
      /\ In (CallUpload key1 ("/tmp/" +:+ Filename file1))
            (calls (serve (SetReviewImage h ctx1) db))
      /\ db1 !! id = Some r1)
  /\ (exists r2,
         writer (serve (SetReviewImage h ctx2) db1) = mkWriter 200 true [JReview r2]
         /\ ID r2 = id /\ Photos r2 = url2
         /\ db2 !! id = Some r2)
  /\ ((forall key path url, upload key path = (url, None) -> contains key url) ->
      contains (Filename file1) url1 /\ contains (Filename file2) url2).
Proof.
  intros h id key1 key2 db1 db2 Hid Hid2 Hold Hf1 Hf2 Hs1 Hs2 Hu1 Hu2.
  assert (H1 := SetReviewImage_stored fresh upload mapping badRequest ctx1 db
                  file1 url1 old Hid Hf1 Hs1 Hu1 Hold).
  fold h id key1 in H1.
  assert (Hdb1 : db1 = <[id := image_update id url1]> db)
    by (unfold db1; now rewrite H1).
  assert (Hold1 : db1 !! Param ctx2 "id" = Some (image_update id url1))
    by (rewrite Hid2, Hdb1; apply lookup_insert_eq).
  assert (Hid' : Param ctx2 "id" <> "") by now rewrite Hid2.
  assert (H2 := SetReviewImage_stored fresh upload mapping badRequest ctx2 db1
                  file2 url2 _ Hid' Hf2 Hs2 Hu2 Hold1).
  fold h key2 in H2. rewrite Hid2 in H2.
  split; [|split].
  - exists (image_update id url1). rewrite H1. cbn [writer calls].
    repeat split; [right; left; reflexivity|].
    rewrite Hdb1. apply lookup_insert_eq.
  - exists (image_update id url2). rewrite H2. cbn [writer].
    repeat split. unfold db2. rewrite H2. cbn [backend]. apply lookup_insert_eq.
  - intros Hurl. split.
    + apply (contains_suffix_of_part (uuid_New_String ctx1 +:+ "-")).
      rewrite string_app_assoc. exact (Hurl _ _ _ Hu1).
    + apply (contains_suffix_of_part (uuid_New_String ctx2 +:+ "-")).
      rewrite string_app_assoc. exact (Hurl _ _ _ Hu2).
Qed.

Lemma SetReviewImage_sets_photos_witness :
  exists r2,
    backend (serve (SetReviewImage Demo.h
                      (Demo.image_request (ID Demo.review1) "dog.png" "9e0d" None))
               (backend (serve (SetReviewImage Demo.h
                                  (Demo.image_request (ID Demo.review1) "cat.png"
                                     "4b1f" None)) Demo.db)))
      !! ID Demo.review1 = Some r2
    /\ Photos r2 = "http://minio:9000/reviews/9e0d-dog.png".
Proof.
  destruct (SetReviewImage_sets_photos Demo.fresh Demo.upload Demo.mapping "BAD_REQUEST"
              (Demo.image_request (ID Demo.review1) "cat.png" "4b1f" None)
              (Demo.image_request (ID Demo.review1) "dog.png" "9e0d" None)
              Demo.db (mkFileHeader "cat.png") (mkFileHeader "dog.png")
              "http://minio:9000/reviews/4b1f-cat.png"
              "http://minio:9000/reviews/9e0d-dog.png" Demo.review1)
    as (_ & (r2 & _ & _ & Hphotos & Hstored) & _).
  - discriminate.
  - reflexivity.
  - vm_compute. reflexivity.
  - reflexivity.
  - reflexivity.
  - reflexivity.
  - reflexivity.
  - reflexivity.
  - reflexivity.
  - exists r2. split; [exact Hstored | exact Hphotos].
Defined.

(** C9. [GetReview] and [DeleteReview] hand the path segment [id] to the
    repository as it is, whatever it is; [SetReviewImage] refuses only the
    empty [id], with status 400 and no call, and hands any other [id] to the
    repository's [Update] as it is once the file is saved and stored. None of
    the three consults [uuid.Parse]. *)
Theorem path_id_is_not_validated
  {S : Type} (h : Handler S) (ctx : Request) (s : S) :
  calls (serve (GetReview h ctx) s) = [CallGetSingle (mkId (Param ctx "id"))]
  /\ calls (serve (DeleteReview h ctx) s) = [CallDelete (mkId (Param ctx "id"))]
  /\ (Param ctx "id" = "" ->
      writer (serve (SetReviewImage h ctx) s) =
        mkWriter 400 true
          [JErrorResponse (mkErrorResponse (ErrorBadRequest h)
                             "Review ID is required in path")]
      /\ calls (serve (SetReviewImage h ctx) s) = [])
  /\ (forall (file : FileHeader) (url : string) (s1 : S),
        Param ctx "id" <> "" ->
        FormFile ctx "file" = (file, None) ->
        SaveUploadedFile ctx file ("/tmp/" +:+ Filename file) = None ->
        MinIO_Upload h (uuid_New_String ctx +:+ "-" +:+ Filename file)
                     ("/tmp/" +:+ Filename file) s = ((url, None), s1) ->
        calls (serve (SetReviewImage h ctx) s) =
          [CallSaveUploadedFile file ("/tmp/" +:+ Filename file);
           CallUpload (uuid_New_String ctx +:+ "-" +:+ Filename file)
                      ("/tmp/" +:+ Filename file);
           CallUpdate (image_update (Param ctx "id") url)]).
Proof.
  split; [|split; [|split]].
  - rewrite GetReview_eq. cbv zeta.
    destruct (GetSingle _ _ _) as [[r [e|]] s']; reflexivity.
  - rewrite DeleteReview_eq. cbv zeta.
    destruct (Delete _ _ _) as [[e|] s']; reflexivity.
  - intros Hid. rewrite SetReviewImage_eq. cbv zeta.
    rewrite bool_decide_eq_true_2 by assumption. auto.
  - intros file url s1 Hid Hfile Hsave Hup.
    rewrite SetReviewImage_eq. cbv zeta.
    rewrite bool_decide_eq_false_2 by assumption.
    rewrite Hfile, Hsave, Hup.
    destruct (Update _ _ s1) as [[u [e|]] s2]; reflexivity.
Qed.

Lemma path_id_is_not_validated_witness :
  err_of (uuid.Parse "42") <> None
  /\ calls (serve (SetReviewImage Demo.h (Demo.image_request "42" "cat.png" "4b1f" None))
                  Demo.db) =
       [CallSaveUploadedFile (mkFileHeader "cat.png") "/tmp/cat.png";
        CallUpload "4b1f-cat.png" "/tmp/cat.png";
        CallUpdate (image_update "42" "http://minio:9000/reviews/4b1f-cat.png")]
  /\ calls (serve (SetReviewImage Demo.h (Demo.image_request "" "cat.png" "4b1f" None))
                  Demo.db) = [].
Proof.
  split; [discriminate|]. split.
  - apply (proj2 (proj2 (proj2 (path_id_is_not_validated Demo.h
             (Demo.image_request "42" "cat.png" "4b1f" None) Demo.db)))
             (mkFileHeader "cat.png") "http://minio:9000/reviews/4b1f-cat.png" Demo.db).
    + discriminate.
    + reflexivity.
    + reflexivity.
    + reflexivity.
  - apply (proj1 (proj2 (proj2 (path_id_is_not_validated Demo.h
             (Demo.image_request "" "cat.png" "4b1f" None) Demo.db)))).
    reflexivity.
Defined.

(** C10. The review [SetReviewImage] passes to the repository's [Update] has
    the path [id] as [ID] and every field other than [ID] and [Photos] at its
    zero value, and the handler never calls [GetSingle]; over the repository
    of the contract, which replaces the whole record, a successful upload
    therefore leaves the stored review with those fields zero, whatever they
    were. *)
Theorem SetReviewImage_update_zeroes_fields
  {S : Type} (h : Handler S) (ctx : Request) (s : S) :
  (forall r, In (CallUpdate r) (calls (serve (SetReviewImage h ctx) s)) ->
             ID r = Param ctx "id" /\ UserID r = "" /\ BusinessID r = ""
             /\ Rating r = 0 /\ Feedback r = "" /\ CreatedAt r = "")
  /\ (forall id, ~ In (CallGetSingle id) (calls (serve (SetReviewImage h ctx) s)))
  /\ (forall fresh upload mapping badRequest (db : gmap string Review)
             (file : FileHeader) (url : string) (old : Review),
        Param ctx "id" <> "" ->
        FormFile ctx "file" = (file, None) ->
        SaveUploadedFile ctx file ("/tmp/" +:+ Filename file) = None ->
        upload (uuid_New_String ctx +:+ "-" +:+ Filename file)
               ("/tmp/" +:+ Filename file) = (url, None) ->
        db !! Param ctx "id" = Some old ->
        backend (serve (SetReviewImage
                          (SpecRepo.handler fresh upload mapping badRequest) ctx) db)
          !! Param ctx "id" = Some (mkReview (Param ctx "id") "" "" 0 "" url "")).
Proof.
  split.
  - intros r Hin. destruct (SetReviewImage_update_call h ctx s r Hin) as [url ->].
    repeat split; reflexivity.
  - split; [intros id; apply SetReviewImage_never_fetches|].
    intros fresh upload mapping badRequest db file url old Hid Hfile Hsave Hup Hold.
    rewrite (SetReviewImage_stored fresh upload mapping badRequest ctx db file url old)
      by assumption.
    cbn [backend]. apply lookup_insert_eq.
Qed.

Lemma SetReviewImage_update_zeroes_fields_witness :
  Demo.db !! ID Demo.review1 = Some Demo.review1
  /\ backend (serve (SetReviewImage Demo.h
                       (Demo.image_request (ID Demo.review1) "cat.png" "4b1f" None))
                    Demo.db) !! ID Demo.review1 =
     Some (mkReview (ID Demo.review1) "" "" 0 ""
                    "http://minio:9000/reviews/4b1f-cat.png" "").
Proof.
  assert (Hold : Demo.db !! ID Demo.review1 = Some Demo.review1)
    by (vm_compute; reflexivity).
  split; [exact Hold|].
  apply (proj2 (proj2 (SetReviewImage_update_zeroes_fields Demo.h
                  (Demo.image_request (ID Demo.review1) "cat.png" "4b1f" None) Demo.db))
           Demo.fresh Demo.upload Demo.mapping "BAD_REQUEST" Demo.db
           (mkFileHeader "cat.png") "http://minio:9000/reviews/4b1f-cat.png"
           Demo.review1).
  - discriminate.
  - reflexivity.
  - reflexivity.
  - reflexivity.
  - exact Hold.
Defined.

(** ** Further properties of the handlers *)

Lemma answered_once_answered (w : ResponseWriter) (r : Z * ErrorResponse) :
  body w = [] -> answered_once (answered w r).
Proof.
  intros Hb. destruct (answered_body w r) as [Hbody Hw].
  split; [exact Hw|]. rewrite Hbody, Hb. reflexivity.
Qed.

Lemma answered_once_single (code : Z) (b : Body) :
  answered_once (mkWriter code true [b]).
Proof. split; reflexivity. Qed.

(** When the status is positive, the error mapper's answer on a fresh writer
    carries that status. *)
Lemma answered_new_status (r : Z * ErrorResponse) :
  0 < fst r ->
  answered newWriter r = mkWriter (fst r) true [JErrorResponse (snd r)].
Proof.
  intros Hpos. unfold answered, WriteHeader, newWriter. cbn [status written body].
  replace (0 <? fst r) with true by (symmetry; now apply Z.ltb_lt).
  destruct (Z.eqb_spec 200 (fst r)) as [<-|Hne]; reflexivity.
Qed.

(** No handler panics: every status it hands to [ctx.JSON] is one net/http
    accepts. *)
Lemma handlers_never_panic
  {S : Type} (h : Handler S) (ctx : Request) (s : S) :
  panics (CreateReview h ctx) s = false
  /\ panics (GetReview h ctx) s = false
  /\ panics (GetReviews h ctx) s = false
  /\ panics (UpdateReview h ctx) s = false
  /\ panics (DeleteReview h ctx) s = false
  /\ panics (SetReviewImage h ctx) s = false.
Proof.
  unfold panics. repeat split; run; cbv zeta.
  - destruct (JSONBody ctx) as [req [e|]]; answer.
    destruct (Create _ _ _) as [[res [e|]] s']; now answer.
  - destruct (GetSingle _ _ _) as [[review [e|]] s']; now answer.
  - destruct (_ && _); [now answer|].
    destruct (GetList _ _ _) as [[l [e|]] s']; now answer.
  - destruct (JSONBody ctx) as [body [e|]]; answer.
    destruct (Update _ _ _) as [[review [e|]] s']; now answer.
  - destruct (Delete _ _ _) as [[e|] s']; now answer.
  - case_bool_decide; [now answer|].
    destruct (FormFile ctx "file") as [file [e|]]; [now answer|].
    destruct (SaveUploadedFile ctx file _) as [e|]; [now answer|]. answer.
    destruct (MinIO_Upload h _ _ s) as [[minioURL [e|]] s1]; [now answer|]. answer.
    destruct (Update _ _ s1) as [[updatedReview [e|]] s2]; now answer.
Qed.

(** X1. Each of the six handlers sends its response exactly once: whatever the
    request and whatever the collaborators answer, the handler does not
    panic and the writer ends up sent with a single body. The statuses of the
    error mapper are error statuses, which all carry a body. *)
Theorem handlers_answer_exactly_once
  {S : Type} (h : Handler S) (ctx : Request) (s : S) :
  (answered_once (writer (serve (CreateReview h ctx) s))
   /\ answered_once (writer (serve (GetReview h ctx) s))
   /\ answered_once (writer (serve (GetReviews h ctx) s))
   /\ answered_once (writer (serve (UpdateReview h ctx) s))
   /\ answered_once (writer (serve (DeleteReview h ctx) s))
   /\ answered_once (writer (serve (SetReviewImage h ctx) s)))
  /\ (panics (CreateReview h ctx) s = false
      /\ panics (GetReview h ctx) s = false
      /\ panics (GetReviews h ctx) s = false
      /\ panics (UpdateReview h ctx) s = false
      /\ panics (DeleteReview h ctx) s = false
      /\ panics (SetReviewImage h ctx) s = false).
Proof.
  split; [|apply handlers_never_panic].
  repeat split.
  all: first [ rewrite CreateReview_eq | rewrite GetReview_eq | rewrite GetReviews_eq
             | rewrite UpdateReview_eq | rewrite DeleteReview_eq
             | rewrite SetReviewImage_eq ]; cbv zeta.
  all: repeat match goal with
         | |- context [match ?x with _ => _ end] => destruct x
         | |- context [if ?b then _ else _] => destruct b
         end; cbn [writer].
  all: first [apply answered_once_single | apply answered_once_answered; reflexivity].
Qed.

(** X2. No handler calls the review repository more than once while serving a
    request; [GetReview] and [DeleteReview] call it exactly once. *)
Theorem handlers_call_repository_at_most_once
  {S : Type} (h : Handler S) (ctx : Request) (s : S) :
  (repo_calls (calls (serve (CreateReview h ctx) s)) <= 1)%nat
  /\ repo_calls (calls (serve (GetReview h ctx) s)) = 1%nat
  /\ (repo_calls (calls (serve (GetReviews h ctx) s)) <= 1)%nat
  /\ (repo_calls (calls (serve (UpdateReview h ctx) s)) <= 1)%nat
  /\ repo_calls (calls (serve (DeleteReview h ctx) s)) = 1%nat
  /\ (repo_calls (calls (serve (SetReviewImage h ctx) s)) <= 1)%nat.
Proof.
  repeat split.
  all: first [ rewrite CreateReview_eq | rewrite GetReview_eq | rewrite GetReviews_eq
             | rewrite UpdateReview_eq | rewrite DeleteReview_eq
             | rewrite SetReviewImage_eq ]; cbv zeta.
  all: repeat match goal with
         | |- context [match ?x with _ => _ end] => destruct x
         | |- context [if ?b then _ else _] => destruct b
         end; cbn; lia.
Qed.

(** X3. [UpdateReview] reads nothing of the request but its JSON body: two
    requests with the same body are served identically whatever their
    headers, and a body that binds is handed to the repository's [Update]
    as it is, [UserID] included. *)
Theorem UpdateReview_reads_only_body
  {S : Type} (h : Handler S) (ctx ctx' : Request) (s : S) :
  JSONBody ctx' = JSONBody ctx ->
  serve (UpdateReview h ctx') s = serve (UpdateReview h ctx) s
  /\ (snd (JSONBody ctx) = None ->
      calls (serve (UpdateReview h ctx') s) = [CallUpdate (fst (JSONBody ctx))]).
Proof.
  intros Hbody. rewrite !UpdateReview_eq, Hbody. split; [reflexivity|].
  destruct (JSONBody ctx) as [body [e|]]; cbn; [discriminate|]. intros _.
  destruct (Update _ _ _) as [[r [e|]] s']; reflexivity.
Qed.

Lemma UpdateReview_reads_only_body_witness :
  calls (serve (UpdateReview Demo.h
                  (Demo.request Demo.noQuery "" "mallory" (Demo.review1, None)
                     (mkFileHeader "", Some "no file") None "")) Demo.db) =
    [CallUpdate Demo.review1].
Proof.
  apply (proj2 (UpdateReview_reads_only_body Demo.h
                  (Demo.request Demo.noQuery "" "u-1" (Demo.review1, None)
                     (mkFileHeader "", Some "no file") None "")
                  (Demo.request Demo.noQuery "" "mallory" (Demo.review1, None)
                     (mkFileHeader "", Some "no file") None "")
                  Demo.db eq_refl)).
  reflexivity.
Defined.

(** X4. [GetReviews] reads nothing of the request but the query parameters
    [page], [limit] and [business_id]: two requests that agree on the three
    are served identically. *)
Theorem GetReviews_reads_only_query
  {S : Type} (h : Handler S) (ctx ctx' : Request) (s : S) :
  GetQuery ctx' "page" = GetQuery ctx "page" ->
  GetQuery ctx' "limit" = GetQuery ctx "limit" ->
  GetQuery ctx' "business_id" = GetQuery ctx "business_id" ->
  serve (GetReviews h ctx') s = serve (GetReviews h ctx) s.
Proof.
  intros Hp Hl Hb. rewrite !GetReviews_eq.
  unfold list_filter, DefaultQuery. now rewrite Hp, Hl, Hb.
Qed.

Lemma GetReviews_reads_only_query_witness :
  serve (GetReviews Demo.h
           (Demo.request (Demo.query1 "page" "2") "some-id" "mallory"
              (Demo.review1, None) (mkFileHeader "a.png", None) None "4b1f"))
        Demo.db =
  serve (GetReviews Demo.h (Demo.list_request (Demo.query1 "page" "2"))) Demo.db.
Proof.
  apply GetReviews_reads_only_query; reflexivity.
Defined.

(** X5. A [business_id] that [uuid.Parse] accepts is handed to [GetList] as
    the client wrote it, in the single filter triple [business_id eq], with
    the default ordering; it is not rewritten to a canonical form. *)
Theorem GetReviews_valid_business_id
  {S : Type} (h : Handler S) (ctx : Request) (s : S) (b : string) (u : list Z) :
  GetQuery ctx "business_id" = Some b ->
  uuid.Parse b = Ok u ->
  exists f,
    calls (serve (GetReviews h ctx) s) = [CallGetList f]
    /\ Filters f = [mkFilter "business_id" "eq" b]
    /\ GetListFilter_OrderBy f = [mkOrderBy "created_at" "desc"].
Proof.
  intros Hq Hp.
  assert (Hb : DefaultQuery ctx "business_id" "" = b)
    by (unfold DefaultQuery; now rewrite Hq).
  exists (list_filter ctx). split.
  - apply GetReviews_delegated. right. now rewrite Hb, Hp.
  - unfold list_filter. cbn [Filters GetListFilter_OrderBy]. now rewrite Hb.
Qed.

Lemma GetReviews_valid_business_id_witness :
  exists f,
    calls (serve (GetReviews Demo.failing
                    (Demo.list_request
                       (Demo.query1 "business_id"
                          "URN:UUID:3FA85F64-5717-4562-B3FC-2C963F66AFA6"))) tt) =
      [CallGetList f]
    /\ Filters f =
         [mkFilter "business_id" "eq" "URN:UUID:3FA85F64-5717-4562-B3FC-2C963F66AFA6"]
    /\ GetListFilter_OrderBy f = [mkOrderBy "created_at" "desc"].
Proof.
  apply (GetReviews_valid_business_id Demo.failing _ tt
           "URN:UUID:3FA85F64-5717-4562-B3FC-2C963F66AFA6"
           [63; 168; 95; 100; 87; 23; 69; 98; 179; 252; 44; 150; 63; 102; 175; 166]).
  - reflexivity.
  - vm_compute. reflexivity.
Defined.

(** X6. A non-empty [business_id] whose length is none of 32, 36, 38 and 45
    bytes is refused with status 404 before the repository is called. *)
Theorem GetReviews_business_id_length
  {S : Type} (h : Handler S) (ctx : Request) (s : S) (b : string) :
  GetQuery ctx "business_id" = Some b ->
  b <> "" ->
  String.length b <> 32%nat -> String.length b <> 36%nat ->
  String.length b <> 38%nat -> String.length b <> 45%nat ->
  serve (GetReviews h ctx) s =
    mkConn (mkWriter 404 true [JH [("Error:", "Wrong format type please write UUID")]])
           [] s.
Proof.
  intros Hq Hne H32 H36 H38 H45.
  assert (Hb : DefaultQuery ctx "business_id" "" = b)
    by (unfold DefaultQuery; now rewrite Hq).
  apply GetReviews_rejected; rewrite Hb; [assumption|].
  unfold uuid.Parse. rewrite bytes_length.
  generalize dependent (String.length b). intros n H32 H36 H38 H45.
  do 46 (destruct n as [|n]; [first [discriminate | congruence]|]).
  discriminate.
Qed.

Lemma GetReviews_business_id_length_witness :
  serve (GetReviews Demo.h
           (Demo.list_request (Demo.query1 "business_id" "3fa85f64-5717-4562-b3fc")))
        Demo.db =
    mkConn (mkWriter 404 true [JH [("Error:", "Wrong format type please write UUID")]])
           [] Demo.db.
Proof.
  apply (GetReviews_business_id_length Demo.h _ Demo.db "3fa85f64-5717-4562-b3fc");
    first [reflexivity | discriminate].
Defined.

(** X7. [SetReviewImage] with an [id] but without the form file [file]
    answers 400 with the envelope message [Error getting file]; nothing is
    saved, uploaded or updated. *)
Theorem SetReviewImage_missing_file
  {S : Type} (h : Handler S) (ctx : Request) (s : S) (file : FileHeader) (e : error) :
  Param ctx "id" <> "" ->
  FormFile ctx "file" = (file, Some e) ->
  serve (SetReviewImage h ctx) s =
    mkConn (mkWriter 400 true
              [JErrorResponse (mkErrorResponse (ErrorBadRequest h) "Error getting file")])
           [] s.
Proof.
  intros Hid Hfile. rewrite SetReviewImage_eq. cbv zeta.
  rewrite bool_decide_eq_false_2 by assumption. now rewrite Hfile.
Qed.

Lemma SetReviewImage_missing_file_witness :
  serve (SetReviewImage Demo.h
           (Demo.request Demo.noQuery (ID Demo.review1) "u-1" (zeroReview, Some "EOF")
              (mkFileHeader "", Some "http: no such file") None "4b1f")) Demo.db =
    mkConn (mkWriter 400 true
              [JErrorResponse (mkErrorResponse "BAD_REQUEST" "Error getting file")])
           [] Demo.db.
Proof.
  apply (SetReviewImage_missing_file Demo.h _ Demo.db (mkFileHeader "")
           "http: no such file").
  - discriminate.
  - reflexivity.
Defined.

(** X8. When the object store refuses the upload, [SetReviewImage] has saved
    the file and tried the upload, but never calls the repository: the
    review is not updated, and the answer is the error mapper's envelope. *)
Theorem SetReviewImage_upload_failure
  {S : Type} (h : Handler S) (ctx : Request) (s s1 : S)
  (file : FileHeader) (url : string) (e : error) :
  let tempPath := "/tmp/" +:+ Filename file in
  let key := uuid_New_String ctx +:+ "-" +:+ Filename file in
  Param ctx "id" <> "" ->
  FormFile ctx "file" = (file, None) ->
  SaveUploadedFile ctx file tempPath = None ->
  MinIO_Upload h key tempPath s = ((url, Some e), s1) ->
  calls (serve (SetReviewImage h ctx) s) =
    [CallSaveUploadedFile file tempPath; CallUpload key tempPath]
  /\ repo_calls (calls (serve (SetReviewImage h ctx) s)) = 0%nat
  /\ body (writer (serve (SetReviewImage h ctx) s)) =
       [JErrorResponse (snd (DbErrorResponse h e "Error uploading review image"))]
  /\ backend (serve (SetReviewImage h ctx) s) = s1.
Proof.
  intros tempPath key Hid Hfile Hsave Hup. rewrite SetReviewImage_eq. cbv zeta.
  rewrite bool_decide_eq_false_2 by assumption.
  rewrite Hfile. fold tempPath. rewrite Hsave. fold key. rewrite Hup.
  cbn [calls writer backend]. repeat split.
  now destruct (answered_body newWriter
                  (DbErrorResponse h e "Error uploading review image")) as [-> _].
Qed.

Lemma SetReviewImage_upload_failure_witness :
  calls (serve (SetReviewImage Demo.failing
                  (Demo.image_request "42" "cat.png" "4b1f" None)) tt) =
    [CallSaveUploadedFile (mkFileHeader "cat.png") "/tmp/cat.png";
     CallUpload "4b1f-cat.png" "/tmp/cat.png"].
Proof.
  apply (SetReviewImage_upload_failure Demo.failing
           (Demo.image_request "42" "cat.png" "4b1f" None) tt tt
           (mkFileHeader "cat.png") "" "store down").
  - discriminate.
  - reflexivity.
  - reflexivity.
  - reflexivity.
Defined.

(** X9. Whatever happens, the calls [SetReviewImage] makes are an initial
    part of: save the file under [/tmp/<file name>], upload it under
    [<uuid>-<file name>], update the review with the returned URL. It never
    uploads what it has not saved, never updates before the upload, and
    calls nothing after the update. *)
Theorem SetReviewImage_calls_in_order
  {S : Type} (h : Handler S) (ctx : Request) (s : S) :
  let file := fst (FormFile ctx "file") in
  let tempPath := "/tmp/" +:+ Filename file in
  let key := uuid_New_String ctx +:+ "-" +:+ Filename file in
  let url := fst (fst (MinIO_Upload h key tempPath s)) in
  calls (serve (SetReviewImage h ctx) s)
    `prefix_of` [CallSaveUploadedFile file tempPath; CallUpload key tempPath;
                 CallUpdate (image_update (Param ctx "id") url)].
Proof.
  rewrite SetReviewImage_eq. cbv zeta.
  case_bool_decide; [apply prefix_nil|].
  destruct (FormFile ctx "file") as [file [e|]]; cbn [fst]; [apply prefix_nil|].
  destruct (SaveUploadedFile ctx file _) as [e|]; cbn [calls].
  { eexists. reflexivity. }
  destruct (MinIO_Upload h _ _ s) as [[url [e|]] s1]; cbn [fst calls].
  { eexists [_]. reflexivity. }
  destruct (Update _ _ s1) as [[u [e|]] s2]; cbn [calls]; reflexivity.
Qed.

(** X10. The review [CreateReview] hands to the repository's [Create] keeps
    every field of the decoded body other than [UserID] as the client sent
    it: the identifier, the business, the rating, the feedback, the photos
    and the creation time are not checked or changed. *)
Theorem CreateReview_forwards_body_fields
  {S : Type} (h : Handler S) (ctx : Request) (s : S) (r : Review) :
  In (CallCreate r) (calls (serve (CreateReview h ctx) s)) ->
  let body := fst (JSONBody ctx) in
  ID r = ID body /\ BusinessID r = BusinessID body /\ Rating r = Rating body
  /\ Feedback r = Feedback body /\ Photos r = Photos body
  /\ CreatedAt r = CreatedAt body.
Proof.
  rewrite CreateReview_eq.
  destruct (JSONBody ctx) as [req [e|]]; cbn [calls fst]; [intros []|].
  cbv zeta. destruct (Create _ _ _) as [[res [e|]] s']; cbn [calls];
    intros [Heq|[]]; injection Heq as <-; repeat split; reflexivity.
Qed.

Lemma CreateReview_forwards_body_fields_witness :
  Rating (with_UserID (mkReview "chosen-by-client" "x" "not-a-uuid" 99 "" "" "") "u-7") = 99
  /\ ID (with_UserID (mkReview "chosen-by-client" "x" "not-a-uuid" 99 "" "" "") "u-7") =
     "chosen-by-client".
Proof.
  destruct (CreateReview_forwards_body_fields Demo.failing
              (Demo.request Demo.noQuery "" "u-7"
                 (mkReview "chosen-by-client" "x" "not-a-uuid" 99 "" "" "", None)
                 (mkFileHeader "", Some "no file") None "") tt
              (with_UserID (mkReview "chosen-by-client" "x" "not-a-uuid" 99 "" "" "") "u-7"))
    as (Hid & _ & Hrating & _).
  - left. reflexivity.
  - split; [exact Hrating | exact Hid].
Defined.

(** On a fresh writer the error mapper's answer is its status and its
    envelope. *)
Lemma answered_new_error {S} (h : Handler S) (e : error) (message : string) :
  answered newWriter (DbErrorResponse h e message) =
    mkWriter (fst (DbErrorResponse h e message)) true
      [JErrorResponse (snd (DbErrorResponse h e message))].
Proof.
  apply answered_new_status. pose proof (DbErrorResponse_range h e message). lia.
Qed.

(** X11. An error of the repository is never answered as a success: in each
    of the five handlers that reach it, the answer has the status the error
    mapper gives that error under the handler's message, an error status
    between 400 and 599, its single body is the mapper's envelope, and the
    state is the one the repository left. *)
Theorem repository_error_is_reported
  {S : Type} (h : Handler S) (ctx : Request) (s s' : S) (e : error) :
  let reported message call :=
    mkConn (mkWriter (fst (DbErrorResponse h e message)) true
              [JErrorResponse (snd (DbErrorResponse h e message))]) [call] s' in
  (forall r, snd (JSONBody ctx) = None ->
      Create (ReviewRepo h) (with_UserID (fst (JSONBody ctx)) (GetHeader ctx "sub")) s
        = ((r, Some e), s') ->
      serve (CreateReview h ctx) s =
        reported "Error creating review"
          (CallCreate (with_UserID (fst (JSONBody ctx)) (GetHeader ctx "sub"))))
  /\ (forall r, GetSingle (ReviewRepo h) (mkId (Param ctx "id")) s = ((r, Some e), s') ->
      serve (GetReview h ctx) s =
        reported "Error getting review" (CallGetSingle (mkId (Param ctx "id"))))
  /\ (forall l,
        DefaultQuery ctx "business_id" "" = ""
        \/ err_of (uuid.Parse (DefaultQuery ctx "business_id" "")) = None ->
        GetList (ReviewRepo h) (list_filter ctx) s = ((l, Some e), s') ->
        serve (GetReviews h ctx) s =
          reported "Error getting reviews" (CallGetList (list_filter ctx)))
  /\ (forall r, snd (JSONBody ctx) = None ->
        Update (ReviewRepo h) (fst (JSONBody ctx)) s = ((r, Some e), s') ->
        serve (UpdateReview h ctx) s =
          reported "Error updating review" (CallUpdate (fst (JSONBody ctx))))
  /\ (Delete (ReviewRepo h) (mkId (Param ctx "id")) s = (Some e, s') ->
      serve (DeleteReview h ctx) s =
        reported "Error deleting review" (CallDelete (mkId (Param ctx "id"))))
  /\ (forall message, 400 <= fst (DbErrorResponse h e message) <= 599).
Proof.
  cbv zeta. repeat apply conj.
  - intros r Hb Hc. rewrite CreateReview_eq.
    destruct (JSONBody ctx) as [req [e'|]]; cbn in *; [discriminate|].
    now rewrite Hc, answered_new_error.
  - intros r Hg. rewrite GetReview_eq. cbv zeta. now rewrite Hg, answered_new_error.
  - intros l Hok Hg. rewrite GetReviews_passed by assumption.
    now rewrite Hg, answered_new_error.
  - intros r Hb Hu. rewrite UpdateReview_eq.
    destruct (JSONBody ctx) as [req [e'|]]; cbn in *; [discriminate|].
    now rewrite Hu, answered_new_error.
  - intros Hd. rewrite DeleteReview_eq. cbv zeta. now rewrite Hd, answered_new_error.
  - intros message. apply DbErrorResponse_range.
Qed.

Lemma repository_error_is_reported_witness :
  serve (GetReview Demo.failing (Demo.image_request "42" "" "" None)) tt =
    mkConn (mkWriter 400 true
              [JErrorResponse (mkErrorResponse "DATABASE_ERROR" "database error")])
           [CallGetSingle (mkId "42")] tt.
Proof.
  apply (proj1 (proj2 (repository_error_is_reported Demo.failing
                         (Demo.image_request "42" "" "" None) tt tt "db down"))
           zeroReview).
  reflexivity.
Defined.

(** X12. [GetReview] and [DeleteReview] read nothing of the request but the
    path segment [id]: two requests with the same [id] are served
    identically. *)
Theorem path_handlers_read_only_id
  {S : Type} (h : Handler S) (ctx ctx' : Request) (s : S) :
  Param ctx' "id" = Param ctx "id" ->
  serve (GetReview h ctx') s = serve (GetReview h ctx) s
  /\ serve (DeleteReview h ctx') s = serve (DeleteReview h ctx) s.
Proof.
  intros Hid. rewrite !GetReview_eq, !DeleteReview_eq, Hid. split; reflexivity.
Qed.

Lemma path_handlers_read_only_id_witness :
  serve (GetReview Demo.h
           (Demo.request (Demo.query1 "page" "7") (ID Demo.review1) "mallory"
              (Demo.review2, None) (mkFileHeader "a.png", None) None "4b1f"))
        Demo.db =
  serve (GetReview Demo.h (Demo.image_request (ID Demo.review1) "" "" None)) Demo.db.
Proof.
  apply (proj1 (path_handlers_read_only_id Demo.h
                  (Demo.image_request (ID Demo.review1) "" "" None)
                  (Demo.request (Demo.query1 "page" "7") (ID Demo.review1) "mallory"
                     (Demo.review2, None) (mkFileHeader "a.png", None) None "4b1f")
                  Demo.db eq_refl)).
Defined.

Lemma fast_digits_bound (bs : list Z) (n m : Z) :
  strconv.fast_digits bs n = Some m -> 0 <= n ->
  n * 10 ^ Z.of_nat (length bs) <= m < (n + 1) * 10 ^ Z.of_nat (length bs).
Proof.
  revert n. induction bs as [|ch bs IH]; intros n Hf Hn.
  - injection Hf as <-. cbn. lia.
  - cbn [strconv.fast_digits] in Hf.
    pose proof (Z.mod_pos_bound (ch - 48) 256 ltac:(lia)) as Hmod.
    destruct (Z.ltb_spec 9 ((ch - 48) mod 256)) as [|Hle]; [discriminate|].
    apply IH in Hf; [|lia].
    replace (Z.of_nat (length (ch :: bs))) with (Z.of_nat (length bs) + 1)
      by (cbn [length]; lia).
    rewrite Z.pow_add_r, Z.pow_1_r by lia.
    pose proof (Z.pow_pos_nonneg 10 (Z.of_nat (length bs)) ltac:(lia) ltac:(lia)).
    nia.
Qed.

Lemma is_digit_value (b : Z) :
  strconv.is_digit b = true -> 0 <= b - 48 <= 9.
Proof.
  unfold strconv.is_digit. intros Hd. apply andb_true_iff in Hd as [H1 H2].
  apply Z.leb_le in H1. apply Z.leb_le in H2. lia.
Qed.

Lemma digits_value_ge (bs : list Z) (n : Z) :
  forallb strconv.is_digit bs = true -> 0 <= n -> n <= digits_value bs n.
Proof.
  unfold digits_value. revert n. induction bs as [|b bs IH]; intros n Hd Hn.
  - cbn. lia.
  - cbn [forallb] in Hd. apply andb_true_iff in Hd as [Hb Hd].
    apply is_digit_value in Hb. cbn [fold_left].
    specialize (IH (n * 10 + (b - 48)) Hd ltac:(lia)). lia.
Qed.

Lemma fast_digits_all (bs : list Z) (n : Z) :
  forallb strconv.is_digit bs = true ->
  strconv.fast_digits bs n = Some (digits_value bs n).
Proof.
  unfold digits_value. revert n. induction bs as [|b bs IH]; intros n Hd.
  - reflexivity.
  - cbn [forallb] in Hd. apply andb_true_iff in Hd as [Hb Hd].
    apply is_digit_value in Hb. cbn [strconv.fast_digits fold_left].
    rewrite Z.mod_small by lia.
    destruct (Z.ltb_spec 9 (b - 48)); [lia|]. now apply IH.
Qed.

(** On a run of digits [ParseUint] computes the number written, or stops at
    the largest 64-bit value with a range error once it is exceeded. *)
Lemma ParseUint_loop_digits (bs : list Z) (n : Z) :
  forallb strconv.is_digit bs = true -> 0 <= n <= strconv.maxUint64 ->
  strconv.ParseUint_loop bs n =
    if digits_value bs n <=? strconv.maxUint64
    then (digits_value bs n, None)
    else (strconv.maxUint64, Some strconv.ErrRange).
Proof.
  unfold strconv.maxUint64. change (2 ^ 64 - 1) with 18446744073709551615.
  revert n. induction bs as [|b bs IH]; intros n Hd Hn.
  - cbn. destruct (Z.leb_spec n 18446744073709551615); [reflexivity | lia].
  - cbn [forallb] in Hd. apply andb_true_iff in Hd as [Hb Hd].
    cbn [strconv.ParseUint_loop]. rewrite Hb. apply is_digit_value in Hb.
    unfold strconv.maxUint64. change (2 ^ 64 - 1) with 18446744073709551615.
    change (18446744073709551615 / 10 + 1) with 1844674407370955162.
    change (2 ^ 64) with 18446744073709551616.
    assert (Hv : digits_value (b :: bs) n = digits_value bs (n * 10 + (b - 48)))
      by reflexivity.
    pose proof (digits_value_ge bs (n * 10 + (b - 48)) Hd ltac:(lia)) as Hge.
    rewrite Hv.
    destruct (Z.leb_spec 1844674407370955162 n) as [Hcut|Hcut].
    { destruct (Z.leb_spec (digits_value bs (n * 10 + (b - 48))) 18446744073709551615);
        [lia | reflexivity]. }
    cbv zeta.
    destruct (Z.leb_spec (n * 10 + (b - 48)) 18446744073709551615) as [Hfit|Hover].
    + rewrite Z.mod_small by lia.
      destruct (Z.ltb_spec (n * 10 + (b - 48)) (n * 10)); [lia|].
      destruct (Z.ltb_spec 18446744073709551615 (n * 10 + (b - 48))); [lia|].
      cbn [orb]. apply IH; [assumption | lia].
    + replace ((n * 10 + (b - 48)) mod 18446744073709551616)
        with (n * 10 + (b - 48) - 18446744073709551616)
        by (apply Z.mod_unique with (q := 1); lia).
      destruct (Z.ltb_spec (n * 10 + (b - 48) - 18446744073709551616) (n * 10)); [|lia].
      cbn [orb].
      destruct (Z.leb_spec (digits_value bs (n * 10 + (b - 48))) 18446744073709551615);
        [lia | reflexivity].
Qed.

Lemma ParseInt_digits (neg : bool) (bs : list Z) :
  bs <> [] -> forallb strconv.is_digit bs = true ->
  fst (match strconv.ParseUint bs with
       | (_, Some strconv.ErrSyntax) => (0, Some strconv.ErrSyntax)
       | (un, _) =>
           if negb neg && (2 ^ 63 <=? un) then (2 ^ 63 - 1, Some strconv.ErrRange)
           else if neg && (2 ^ 63 <? un) then (- 2 ^ 63, Some strconv.ErrRange)
           else (if neg then - un else un, None)
       end) =
    clamp_int (if neg then - digits_value bs 0 else digits_value bs 0).
Proof.
  intros Hne Hd. unfold strconv.ParseUint.
  destruct bs as [|b bs]; [contradiction|].
  rewrite ParseUint_loop_digits by (assumption || (unfold strconv.maxUint64; lia)).
  pose proof (digits_value_ge (b :: bs) 0 Hd ltac:(lia)) as Hge.
  unfold clamp_int, strconv.maxUint64.
  change (2 ^ 64 - 1) with 18446744073709551615.
  change (2 ^ 63) with 9223372036854775808.
  destruct (Z.leb_spec (digits_value (b :: bs) 0) 18446744073709551615).
  - destruct neg; cbn [negb andb].
    + destruct (Z.ltb_spec 9223372036854775808 (digits_value (b :: bs) 0)); cbn [fst]; lia.
    + destruct (Z.leb_spec 9223372036854775808 (digits_value (b :: bs) 0)); cbn [fst]; lia.
  - destruct neg; cbn -[digits_value Z.max Z.min]; lia.
Qed.

(** [Atoi] reads an optionally signed run of digits as the integer written,
    clamped to the 64-bit range. *)
Lemma Atoi_decimal (s : string) :
  strconv.is_decimal s = true -> fst (strconv.Atoi s) = clamp_int (decimal_value s).
Proof.
  unfold strconv.is_decimal, strconv.Atoi, decimal_value. cbv zeta.
  destruct (bytes s) as [|c0 rest] eqn:Hbytes; [discriminate|].
  intros Hd. apply andb_true_iff in Hd as [Hlen Hd].
  apply negb_true_iff, Z.ltb_ge in Hlen.
  set (ds := if (c0 =? 45) || (c0 =? 43) then rest else c0 :: rest) in *.
  assert (Hds : ds <> []) by (intros ->; cbn in Hlen; lia).
  assert (Hval : (if c0 =? 45 then - digits_value rest 0
                  else if c0 =? 43 then digits_value rest 0
                  else digits_value (c0 :: rest) 0) =
                 (if c0 =? 45 then - digits_value ds 0 else digits_value ds 0)).
  { unfold ds. destruct (c0 =? 45), (c0 =? 43); reflexivity. }
  rewrite Hval.
  destruct ((0 <? Z.of_nat (length (c0 :: rest)))
            && (Z.of_nat (length (c0 :: rest)) <? 19)) eqn:Hfast.
  - apply andb_true_iff in Hfast as [_ Hshort]. apply Z.ltb_lt in Hshort.
    replace (Z.of_nat (length ds) <? 1) with false by (symmetry; now apply Z.ltb_ge).
    rewrite andb_false_r, fast_digits_all by assumption.
    pose proof (fast_digits_bound ds 0 _ (fast_digits_all ds 0 Hd) ltac:(lia)) as Hb.
    assert (Hl : Z.of_nat (length ds) <= 18)
      by (unfold ds; destruct ((c0 =? 45) || (c0 =? 43)); cbn [length] in *; lia).
    assert (Hp : 10 ^ Z.of_nat (length ds) <= 10 ^ 18)
      by (apply Z.pow_le_mono_r; lia).
    change (10 ^ 18) with 1000000000000000000 in Hp.
    unfold clamp_int. change (2 ^ 63) with 9223372036854775808.
    destruct (c0 =? 45); cbn [fst]; lia.
  - unfold strconv.ParseInt. cbv zeta.
    replace (if (c0 =? 43) || (c0 =? 45) then rest else c0 :: rest) with ds
      by (unfold ds; now rewrite orb_comm).
    apply (ParseInt_digits (c0 =? 45) ds Hds Hd).
Qed.

(** X13. A page or a limit written as an optionally signed run of decimal
    digits reaches [GetList] as the integer written, zero and negative
    numbers included, and a number outside the 64-bit range as the nearest
    bound of that range; the request is passed on either way. *)
Theorem GetReviews_page_limit_clamped
  {S : Type} (h : Handler S) (ctx : Request) (s : S) :
  DefaultQuery ctx "business_id" "" = ""
  \/ err_of (uuid.Parse (DefaultQuery ctx "business_id" "")) = None ->
  exists f,
    calls (serve (GetReviews h ctx) s) = [CallGetList f]
    /\ (forall p, GetQuery ctx "page" = Some p -> strconv.is_decimal p = true ->
                  Page f = clamp_int (decimal_value p))
    /\ (forall l, GetQuery ctx "limit" = Some l -> strconv.is_decimal l = true ->
                  Limit f = clamp_int (decimal_value l)).
Proof.
  intros Hok. exists (list_filter ctx). split; [now apply GetReviews_delegated|].
  unfold list_filter, DefaultQuery; cbn [Page Limit]. split.
  - intros p -> Hp. now apply Atoi_decimal.
  - intros l -> Hl. now apply Atoi_decimal.
Qed.

Lemma GetReviews_page_limit_clamped_witness :
  exists f,
    calls (serve (GetReviews Demo.failing
                    (Demo.list_request
                       (fun k => if bool_decide (k = "page") then Some "-3"
                                 else if bool_decide (k = "limit")
                                      then Some "99999999999999999999"
                                      else None))) tt) = [CallGetList f]
    /\ Page f = -3 /\ Limit f = 9223372036854775807.
Proof.
  destruct (GetReviews_page_limit_clamped Demo.failing
              (Demo.list_request
                 (fun k => if bool_decide (k = "page") then Some "-3"
                           else if bool_decide (k = "limit")
                                then Some "99999999999999999999"
                                else None)) tt)
    as (f & Hc & Hp & Hl).
  - left. reflexivity.
  - exists f. split; [exact Hc|]. split.
    + rewrite (Hp "-3"); reflexivity.
    + rewrite (Hl "99999999999999999999"); reflexivity.
Defined.

Lemma string_app_length (a b : string) :
  String.length (a +:+ b) = (String.length a + String.length b)%nat.
Proof.
  induction a as [|x a IH]; [reflexivity|].
  change (Datatypes.S (String.length (a +:+ b)) =
          Datatypes.S (String.length a + String.length b)).
  now rewrite IH.
Qed.

Lemma string_app_inv_tail (a b c : string) : a +:+ c = b +:+ c -> a = b.
Proof.
  revert b. induction a as [|x a IH]; intros [|y b] Heq.
  - reflexivity.
  - apply (f_equal String.length) in Heq.
    change (String.length c = Datatypes.S (String.length (b +:+ c))) in Heq.
    rewrite string_app_length in Heq. lia.
  - apply (f_equal String.length) in Heq.
    change (Datatypes.S (String.length (a +:+ c)) = String.length c) in Heq.
    rewrite string_app_length in Heq. lia.
  - change (String x (a +:+ c) = String y (b +:+ c)) in Heq.
    injection Heq as -> Heq. f_equal. now apply IH.
Qed.

(** Any upload [SetReviewImage] issues is of the saved file under the key
    [<uuid>-<file name>]. *)
Lemma SetReviewImage_upload_call
      {S : Type} (h : Handler S) (ctx : Request) (s : S) (key path : string) :
  In (CallUpload key path) (calls (serve (SetReviewImage h ctx) s)) ->
  key = uuid_New_String ctx +:+ "-" +:+ Filename (fst (FormFile ctx "file"))
  /\ path = "/tmp/" +:+ Filename (fst (FormFile ctx "file")).
Proof.
  rewrite SetReviewImage_eq. cbv zeta.
  case_bool_decide; [intros []|].
  destruct (FormFile ctx "file") as [file [e|]]; cbn [fst]; [intros []|].
  destruct (SaveUploadedFile ctx file _) as [e|];
    [intros [Hd|[]]; discriminate|].
  destruct (MinIO_Upload h _ _ s) as [[url [e|]] s1].
  - intros [Hd|[Hd|[]]]; [discriminate|]. injection Hd as <- <-. auto.
  - destruct (Update _ _ s1) as [[u [e|]] s2];
      (intros [Hd|[Hd|[Hd|[]]]]; try discriminate; injection Hd as <- <-; auto).
Qed.

(** X14. Two uploads of files with the same name are saved under the same
    temporary path, whatever the reviews they are for, while their keys in
    the object store differ as soon as the identifiers drawn for them
    differ. *)
Theorem SetReviewImage_key_and_temp_path
  {S : Type} (h : Handler S) (ctx1 ctx2 : Request) (s1 s2 : S)
  (key1 path1 key2 path2 : string) :
  In (CallUpload key1 path1) (calls (serve (SetReviewImage h ctx1) s1)) ->
  In (CallUpload key2 path2) (calls (serve (SetReviewImage h ctx2) s2)) ->
  Filename (fst (FormFile ctx1 "file")) = Filename (fst (FormFile ctx2 "file")) ->
  path1 = path2
  /\ (uuid_New_String ctx1 <> uuid_New_String ctx2 -> key1 <> key2).
Proof.
  intros H1 H2 Hname.
  apply SetReviewImage_upload_call in H1 as [-> ->].
  apply SetReviewImage_upload_call in H2 as [-> ->].
  rewrite Hname. split; [reflexivity|].
  intros Hne Heq. apply Hne. exact (string_app_inv_tail _ _ _ Heq).
Qed.

Lemma SetReviewImage_key_and_temp_path_witness :
  "/tmp/cat.png" = "/tmp/cat.png" /\ "4b1f-cat.png" <> "9e0d-cat.png".
Proof.
  destruct (SetReviewImage_key_and_temp_path Demo.h
              (Demo.image_request (ID Demo.review1) "cat.png" "4b1f" None)
              (Demo.image_request (ID Demo.review2) "cat.png" "9e0d" None)
              Demo.db Demo.db "4b1f-cat.png" "/tmp/cat.png" "9e0d-cat.png" "/tmp/cat.png")
    as [Hpath Hkey].
  - right. left. vm_compute. reflexivity.
  - right. left. vm_compute. reflexivity.
  - reflexivity.
  - split; [exact Hpath|]. apply Hkey. discriminate.
Defined.

(** X15. [GetReviews] skips the repository exactly when [business_id] is
    non-empty and refused by [uuid.Parse]; in every other case it calls
    [GetList] once. *)
Theorem GetReviews_skips_repository_iff
  {S : Type} (h : Handler S) (ctx : Request) (s : S) :
  let b := DefaultQuery ctx "business_id" "" in
  (calls (serve (GetReviews h ctx) s) = [] <->
   b <> "" /\ err_of (uuid.Parse b) <> None)
  /\ (calls (serve (GetReviews h ctx) s) = [CallGetList (list_filter ctx)] <->
      b = "" \/ err_of (uuid.Parse b) = None).
Proof.
  cbv zeta.
  destruct (decide (DefaultQuery ctx "business_id" "" = "")) as [He|Hne].
  - rewrite (GetReviews_delegated h ctx s) by now left.
    split; split; intros; try discriminate; intuition congruence.
  - destruct (err_of (uuid.Parse (DefaultQuery ctx "business_id" ""))) eqn:Hp.
    + rewrite GetReviews_rejected by (assumption || congruence). cbn [calls].
      split; split; intros; try discriminate; intuition congruence.
    + rewrite (GetReviews_delegated h ctx s) by now right.
      split; split; intros; try discriminate; intuition congruence.
Qed.

(** X16. [SetReviewImage] reaches the repository exactly when the [id] is
    non-empty, the form file is present, the file is saved and the upload
    succeeds; in every other case the review is left alone. *)
Theorem SetReviewImage_reaches_repository_iff
  {S : Type} (h : Handler S) (ctx : Request) (s : S) :
  let file := fst (FormFile ctx "file") in
  let tempPath := "/tmp/" +:+ Filename file in
  let key := uuid_New_String ctx +:+ "-" +:+ Filename file in
  repo_calls (calls (serve (SetReviewImage h ctx) s)) = 1%nat <->
  Param ctx "id" <> ""
  /\ snd (FormFile ctx "file") = None
  /\ SaveUploadedFile ctx file tempPath = None
  /\ snd (fst (MinIO_Upload h key tempPath s)) = None.
Proof.
  rewrite SetReviewImage_eq. cbv zeta.
  case_bool_decide as Hid; [cbn; split; [discriminate | tauto]|].
  destruct (FormFile ctx "file") as [file [e|]]; cbn [fst snd];
    [cbn; split; [discriminate | intros (_ & Hd & _); discriminate]|].
  destruct (SaveUploadedFile ctx file _) as [e|];
    [cbn; split; [discriminate | intros (_ & _ & Hd & _); discriminate]|].
  destruct (MinIO_Upload h _ _ s) as [[url [e|]] s1]; cbn [fst snd];
    [cbn; split; [discriminate | intros (_ & _ & _ & Hd); discriminate]|].
  destruct (Update _ _ s1) as [[u [e|]] s2]; cbn; tauto.
Qed.

Lemma GetReviews_skips_repository_iff_witness :
  calls (serve (GetReviews Demo.h
                  (Demo.list_request (Demo.query1 "business_id" "not-a-uuid")))
               Demo.db) = [].
Proof.
  apply (proj1 (GetReviews_skips_repository_iff Demo.h
                  (Demo.list_request (Demo.query1 "business_id" "not-a-uuid"))
                  Demo.db)).
  split; discriminate.
Defined.

Lemma SetReviewImage_reaches_repository_iff_witness :
  repo_calls (calls (serve (SetReviewImage Demo.h
                              (Demo.image_request "42" "cat.png" "4b1f" None))
                           Demo.db)) = 1%nat.
Proof.
  apply (SetReviewImage_reaches_repository_iff Demo.h
           (Demo.image_request "42" "cat.png" "4b1f" None) Demo.db).
  repeat split. discriminate.
Defined.

(** X17. [CreateReview] reads nothing of the request but its JSON body and
    the header [sub], and [SetReviewImage] nothing but the path [id], the
    form file, the outcome of saving it and the identifier drawn: requests
    that agree on these are served identically. *)
Theorem mutations_read_only_their_inputs
  {S : Type} (h : Handler S) (ctx ctx' : Request) (s : S) :
  (JSONBody ctx' = JSONBody ctx ->
   GetHeader ctx' "sub" = GetHeader ctx "sub" ->
   serve (CreateReview h ctx') s = serve (CreateReview h ctx) s)
  /\ (Param ctx' "id" = Param ctx "id" ->
      FormFile ctx' "file" = FormFile ctx "file" ->
      (forall file, SaveUploadedFile ctx' file ("/tmp/" +:+ Filename file) =
                    SaveUploadedFile ctx file ("/tmp/" +:+ Filename file)) ->
      uuid_New_String ctx' = uuid_New_String ctx ->
      serve (SetReviewImage h ctx') s = serve (SetReviewImage h ctx) s).
Proof.
  split.
  - intros Hb Hs. now rewrite !CreateReview_eq, Hb, Hs.
  - intros Hid Hf Hsave Hu. rewrite !SetReviewImage_eq. cbv zeta.
    rewrite Hid, Hf, Hu. destruct (FormFile ctx "file") as [file err].
    now rewrite Hsave.
Qed.

Lemma mutations_read_only_their_inputs_witness :
  serve (SetReviewImage Demo.h
           (Demo.request (Demo.query1 "page" "7") "42" "mallory" (Demo.review2, None)
              (mkFileHeader "cat.png", None) None "4b1f")) Demo.db =
  serve (SetReviewImage Demo.h (Demo.image_request "42" "cat.png" "4b1f" None)) Demo.db.
Proof.
  apply (proj2 (mutations_read_only_their_inputs Demo.h
                  (Demo.image_request "42" "cat.png" "4b1f" None)
                  (Demo.request (Demo.query1 "page" "7") "42" "mallory"
                     (Demo.review2, None) (mkFileHeader "cat.png", None) None "4b1f")
                  Demo.db)); reflexivity.
Defined.

(** X18. When the repository reports no error, the answer is 200 and its
    body is what the repository returned, not what the client sent: the
    created review for [CreateReview], the stored one for [GetReview], the
    updated one for [UpdateReview], and the fixed message
    [Review deleted successfully] for [DeleteReview]. *)
Theorem success_answers_repository_result
  {S : Type} (h : Handler S) (ctx : Request) (s s' : S) (r : Review) :
  (snd (JSONBody ctx) = None ->
   Create (ReviewRepo h) (with_UserID (fst (JSONBody ctx)) (GetHeader ctx "sub")) s
     = ((r, None), s') ->
   writer (serve (CreateReview h ctx) s) = mkWriter 200 true [JReview r]
   /\ backend (serve (CreateReview h ctx) s) = s')
  /\ (GetSingle (ReviewRepo h) (mkId (Param ctx "id")) s = ((r, None), s') ->
      writer (serve (GetReview h ctx) s) = mkWriter 200 true [JReview r]
      /\ backend (serve (GetReview h ctx) s) = s')
  /\ (snd (JSONBody ctx) = None ->
      Update (ReviewRepo h) (fst (JSONBody ctx)) s = ((r, None), s') ->
      writer (serve (UpdateReview h ctx) s) = mkWriter 200 true [JReview r]
      /\ backend (serve (UpdateReview h ctx) s) = s')
  /\ (Delete (ReviewRepo h) (mkId (Param ctx "id")) s = (None, s') ->
      writer (serve (DeleteReview h ctx) s) =
        mkWriter 200 true
          [JSuccessResponse (mkSuccessResponse "Review deleted successfully")]
      /\ backend (serve (DeleteReview h ctx) s) = s').
Proof.
  repeat apply conj.
  - intros Hb Hc. rewrite CreateReview_eq.
    destruct (JSONBody ctx) as [req [e|]]; cbn in *; [discriminate|].
    rewrite Hc. auto.
  - intros Hg. rewrite GetReview_eq. cbv zeta. rewrite Hg. auto.
  - intros Hb Hu. rewrite UpdateReview_eq.
    destruct (JSONBody ctx) as [req [e|]]; cbn in *; [discriminate|].
    rewrite Hu. auto.
  - intros Hd. rewrite DeleteReview_eq. cbv zeta. rewrite Hd. auto.
Qed.

Lemma success_answers_repository_result_witness :
  writer (serve (CreateReview Demo.h
                   (Demo.request Demo.noQuery "" "u-7"
                      (mkReview "chosen-by-client" "x" "b" 4 "ok" "" "", None)
                      (mkFileHeader "", Some "no file") None "")) Demo.db) =
    mkWriter 200 true
      [JReview (mkReview "5c2e1a2e-0000-4000-8000-000000000001" "u-7" "b" 4 "ok" ""
                  "2024-03-01T10:00:00Z")].
Proof.
  apply (proj1 (success_answers_repository_result Demo.h
                  (Demo.request Demo.noQuery "" "u-7"
                     (mkReview "chosen-by-client" "x" "b" 4 "ok" "" "", None)
                     (mkFileHeader "", Some "no file") None "")
                  Demo.db
                  (<["5c2e1a2e-0000-4000-8000-000000000001" :=
                       mkReview "5c2e1a2e-0000-4000-8000-000000000001" "u-7" "b" 4 "ok" ""
                         "2024-03-01T10:00:00Z"]> Demo.db)
                  (mkReview "5c2e1a2e-0000-4000-8000-000000000001" "u-7" "b" 4 "ok" ""
                     "2024-03-01T10:00:00Z"))).
  - reflexivity.
  - vm_compute. reflexivity.
Defined.
